(** * fabricdw: the installation registry and its JSON-backed configuration

    A shallow embedding of [fabricdw/common/config.py] and
    [fabricdw/installations/remove.py].

    Python objects that travel through [to_dict]/[from_dict] are values of
    [pyobj]; the process-wide [CONFIG] object, the disk that [os.path] looks
    at, the configuration file and the terminal live in a [World] that every
    effectful function threads through.  A raised exception keeps the
    mutations performed before it, as in Python. *)

From Stdlib Require Import Floats.SpecFloat Strings.Ascii.
From stdpp Require Import gmap strings list fin_maps.

#[local] Set Warnings "-register-all".

(** ** Python values *)

(** What [json.load] can produce and [json.dump] can consume.  A float is
    kept as its IEEE-754 binary64 decomposition; nothing here computes with
    it, it is only stored and compared. *)
Inductive pyobj : Type :=
| PyNone
| PyBool (b : bool)
| PyInt (z : Z)
| PyFloat (f : spec_float)
| PyStr (s : string)
| PyList (l : list pyobj)
| PyDict (d : gmap string pyobj).

(** The literal [0.5]. *)
Definition float_0_5 : spec_float := S754_finite false 4503599627370496 (-53).
(** The literal [1.0]. *)
Definition float_1_0 : spec_float := S754_finite false 4503599627370496 (-52).

(** ** Installations, exceptions, outcomes *)

(** [Installation.__init__(self, name: str, root: str)]. *)
Record Installation : Type := { name : string; root : string }.

Inductive exn : Type :=
| InstallationDoesNotExistError (n : string)
| InstallationAlreadyExistError (installation : Installation)
| InvalidCombinationException
| ValueError     (* [list.remove(x)]: x not in list *)
| KeyError (key : string)
| TypeError
| OSError.

(** The result of a call: a value, a raised exception, or [OutOfTypes] when a
    value that is not a string would become the [name] or the [root] of an
    [Installation] ([__init__(self, name: str, root: str)]): the program
    builds an object there that no record of the model stands for. *)
Inductive outcome (A : Type) : Type :=
| Returns (a : A)
| Raises (e : exn)
| OutOfTypes.
Arguments Returns {A} a.
Arguments Raises {A} e.
Arguments OutOfTypes {A}.

#[global] Instance outcome_ret : MRet outcome := fun A a => Returns a.
#[global] Instance outcome_bind : MBind outcome := fun A B f m =>
  match m with
  | Returns a => f a
  | Raises e => Raises e
  | OutOfTypes => OutOfTypes
  end.

(** A list comprehension [[f(x) for x in l]]: left to right, stopping at the
    first element on which [f] raises. *)
Fixpoint comprehension {A B : Type} (f : A -> outcome B) (l : list A) : outcome (list B) :=
  match l with
  | [] => Returns []
  | x :: l' => y ← f x; ys ← comprehension f l'; Returns (y :: ys)
  end.

(** ** The pieces of Python the source relies on *)

(** [o[key]] for a [str] key. *)
Definition py_getitem (o : pyobj) (key : string) : outcome pyobj :=
  match o with
  | PyDict d => match d !! key with Some v => Returns v | None => Raises (KeyError key) end
  | _ => Raises TypeError
  end.

(** [for x in o]: the elements of a list, the keys of a dict, the characters
    of a string; anything else is not iterable. *)
Definition py_iter (o : pyobj) : outcome (list pyobj) :=
  match o with
  | PyList l => Returns l
  | PyDict d => Returns (PyStr <$> (map_to_list d).*1)
  | PyStr s => Returns ((fun c => PyStr (String c EmptyString)) <$> String.list_ascii_of_string s)
  | _ => Raises TypeError
  end.

(** [key in s] for two strings: [key] occurs in [s]. *)
Fixpoint substring_of (key s : string) : bool :=
  String.prefix key s
  || match s with
     | EmptyString => false
     | String _ s' => substring_of key s'
     end.

(** [key in o] for a [str] key: a key of the dict, an element of the list
    equal to the string, a substring of the string; anything else is not a
    container. *)
Definition py_contains (key : string) (o : pyobj) : outcome bool :=
  match o with
  | PyDict d => Returns (match d !! key with Some _ => true | None => false end)
  | PyList l =>
      Returns (existsb (fun x => match x with
                                 | PyStr s => bool_decide (s = key)
                                 | _ => false
                                 end) l)
  | PyStr s => Returns (substring_of key s)
  | _ => Raises TypeError
  end.

(** The guard of the annotations [name: str] and [root: str]. *)
Definition as_str (o : pyobj) : outcome string :=
  match o with PyStr s => Returns s | _ => OutOfTypes end.

(** [list.remove(x)]: drops the first item with [item == x]; [None] stands
    for the [ValueError] raised when there is none. *)
Fixpoint list_remove {A : Type} (eqb : A -> A -> bool) (x : A) (l : list A) : option (list A) :=
  match l with
  | [] => None
  | item :: l' => if eqb item x then Some l' else (item ::.) <$> list_remove eqb x l'
  end.

(** colorama's escape sequences. *)
Definition ESC : string := String (ascii_of_nat 27) EmptyString.
Definition LF : string := String (ascii_of_nat 10) EmptyString.
Definition Fore_RED : string := ESC +:+ "[31m".
Definition Fore_CYAN : string := ESC +:+ "[36m".
Definition Style_RESET_ALL : string := ESC +:+ "[0m".

(** ** config.py *)

(** [_default_get(source, key, fallback)]:
    [source[key] if key in source else fallback]. *)
Definition _default_get (source : gmap string pyobj) (key : string) (fallback : pyobj) : pyobj :=
  match source !! key with
  | Some v => v
  | None => fallback
  end.

(** The same expression when [source] is whatever object the caller handed
    over, as [Config.from_dict] does with [data['defaults']]: on a list or a
    string that holds the key, [source[key]] raises. *)
Definition _default_get_any (source : pyobj) (key : string) (fallback : pyobj) : outcome pyobj :=
  present ← py_contains key source;
  if (present : bool) then py_getitem source key else Returns fallback.

Module Installation.

(** [__eq__(self, other)]: [other.name == self.name].  The lists of the
    program hold installations only, so the [isinstance] test has succeeded
    wherever this is used; comparing with [None] is handled at the call. *)
Definition __eq__ (self other : Installation) : bool :=
  bool_decide (name other = name self).

(** [pretty_name_str(name, after=None)]. *)
Definition pretty_name_str (n : string) (after : option string) : string :=
  Fore_CYAN +:+ n +:+ Style_RESET_ALL +:+ default "" after.

Definition pretty_name (self : Installation) (after : option string) : string :=
  pretty_name_str (name self) after.

Definition __str__ (self : Installation) : string :=
  pretty_name self None +:+ " (" +:+ root self +:+ ")".

(** [from_dict(cls, data: dict)]: [cls(data["name"], data["root"])]. *)
Definition from_dict (data : gmap string pyobj) : outcome Installation :=
  n ← py_getitem (PyDict data) "name";
  r ← py_getitem (PyDict data) "root";
  n ← as_str n;
  r ← as_str r;
  Returns {| name := n; root := r |}.

(** [from_dict] applied to an item that need not be a dict, as the list
    comprehension of [Config.from_dict] does. *)
Definition from_obj (data : pyobj) : outcome Installation :=
  n ← py_getitem data "name";
  r ← py_getitem data "root";
  n ← as_str n;
  r ← as_str r;
  Returns {| name := n; root := r |}.

Definition to_dict (self : Installation) : gmap string pyobj :=
  {[ "root" := PyStr (root self); "name" := PyStr (name self) ]}.

End Installation.

(** The text an exception is created with. *)
Definition exn_message (e : exn) : string :=
  match e with
  | InstallationDoesNotExistError n =>
      Fore_RED +:+ "Installation '" +:+ n +:+ "' does not exist!" +:+ Style_RESET_ALL
  | InstallationAlreadyExistError i =>
      Fore_RED +:+ "Installation '" +:+ Installation.pretty_name i (Some Fore_RED)
        +:+ "' already exists ('" +:+ root i +:+ "')!" +:+ Style_RESET_ALL
  | InvalidCombinationException =>
      "Invalid combination of game, loader, and installer version!"
  | _ => ""
  end.

(** [Defaults]: the four attributes hold whatever the dict held. *)
Record Defaults : Type := {
  min_ram : pyobj;
  max_ram : pyobj;
  idle_time : pyobj;
  backups : pyobj
}.

Module Defaults.

Definition __init__ (data : gmap string pyobj) : Defaults :=
  {| min_ram := _default_get data "min-ram" (PyFloat float_0_5);
     max_ram := _default_get data "max-ram" (PyInt 6);
     idle_time := _default_get data "idle_time" (PyInt 0);
     backups := _default_get data "backups" (PyInt 5) |}.

Definition from_dict (data : gmap string pyobj) : Defaults := __init__ data.

(** [from_dict] applied to an object that need not be a dict: the four
    [_default_get] calls of [__init__], in their order. *)
Definition from_obj (data : pyobj) : outcome Defaults :=
  a ← _default_get_any data "min-ram" (PyFloat float_0_5);
  b ← _default_get_any data "max-ram" (PyInt 6);
  c ← _default_get_any data "idle_time" (PyInt 0);
  d ← _default_get_any data "backups" (PyInt 5);
  Returns {| min_ram := a; max_ram := b; idle_time := c; backups := d |}.

Definition to_dict (self : Defaults) : gmap string pyobj :=
  {[ "min-ram" := min_ram self; "max-ram" := max_ram self;
     "idle_time" := idle_time self; "backups" := backups self ]}.

End Defaults.

Record Config : Type := {
  defaults : Defaults;
  installations : list Installation
}.

Module Config.

(** [from_dict(cls, data: dict)]: the defaults first, then the items of
    [data['installations']] in order. *)
Definition from_dict (data : gmap string pyobj) : outcome Config :=
  d ← py_getitem (PyDict data) "defaults";
  defaults ← Defaults.from_obj d;
  raw ← py_getitem (PyDict data) "installations";
  items ← py_iter raw;
  installations ← comprehension Installation.from_obj items;
  Returns {| defaults := defaults; installations := installations |}.

Definition to_dict (self : Config) : gmap string pyobj :=
  {[ "defaults" := PyDict (Defaults.to_dict (defaults self));
     "installations" :=
       PyList ((fun i => PyDict (Installation.to_dict i)) <$> installations self) ]}.

(** [get_installation(self, name)]: the first record with that name. *)
Fixpoint lookup_name (l : list Installation) (n : string) : option Installation :=
  match l with
  | [] => None
  | installation :: l' =>
      if bool_decide (name installation = n) then Some installation else lookup_name l' n
  end.

Definition get_installation (self : Config) (n : string) : option Installation :=
  lookup_name (installations self) n.

(** [remove_installation(self, installation)]:
    [self.installations.remove(installation)]; returns the mutated [self]. *)
Definition remove_installation (self : Config) (installation : Installation) : outcome Config :=
  match list_remove Installation.__eq__ installation (installations self) with
  | Some l => Returns {| defaults := defaults self; installations := l |}
  | None => Raises ValueError
  end.

(** The list part of [create_new_installation]: append, return the record. *)
Definition append_installation (self : Config) (n r : string) : Config * Installation :=
  let installation := {| name := n; root := r |} in
  ({| defaults := defaults self; installations := installations self ++ [installation] |},
   installation).

End Config.

(** ** The process and its surroundings *)

(** What [os.path.exists] and [os.path.isdir] look at: the paths that exist,
    each a directory or something else. *)
Inductive node : Type := File | Dir.

Definition path_exists (fs : gmap string node) (path : string) : bool :=
  match fs !! path with Some _ => true | None => false end.

Definition isdir (fs : gmap string node) (path : string) : bool :=
  match fs !! path with Some Dir => true | _ => false end.

(** What the process does to the outside, in order. *)
Inductive event : Type :=
| Printed (text : string)
| Asked (message : string) (answer : bool)
| RemovedDir (path : string).

Record World : Type := {
  CONFIG : Config;                              (* the module global of config.py *)
  disk : gmap string node;
  config_file : option (gmap string pyobj);     (* the JSON document at CONFIG_FILE *)
  config_writable : bool;                       (* whether open(CONFIG_FILE, "w") succeeds *)
  events : list event
}.

Definition set_CONFIG (c : Config) (w : World) : World :=
  {| CONFIG := c; disk := disk w; config_file := config_file w;
     config_writable := config_writable w; events := events w |}.

Definition set_disk (fs : gmap string node) (w : World) : World :=
  {| CONFIG := CONFIG w; disk := fs; config_file := config_file w;
     config_writable := config_writable w; events := events w |}.

Definition set_config_file (d : gmap string pyobj) (w : World) : World :=
  {| CONFIG := CONFIG w; disk := disk w; config_file := Some d;
     config_writable := config_writable w; events := events w |}.

Definition emit (e : event) (w : World) : World :=
  {| CONFIG := CONFIG w; disk := disk w; config_file := config_file w;
     config_writable := config_writable w; events := events w ++ [e] |}.

(** A call: from the world before to its outcome and the world after. *)
Definition M (A : Type) : Type := World -> outcome A * World.

#[global] Instance M_ret : MRet M := fun A a w => (Returns a, w).
#[global] Instance M_bind : MBind M := fun A B f m w =>
  match m w with
  | (Returns a, w') => f a w'
  | (Raises e, w') => (Raises e, w')
  | (OutOfTypes, w') => (OutOfTypes, w')
  end.

Definition gets {A : Type} (f : World -> A) : M A := fun w => (Returns (f w), w).
Definition modify (f : World -> World) : M unit := fun w => (Returns tt, f w).
Definition raise {A : Type} (e : exn) : M A := fun w => (Raises e, w).
Definition print (text : string) : M unit := modify (emit (Printed text)).

(** Method calls on the global [CONFIG]. *)
Definition CONFIG_get_installation (n : string) : M (option Installation) :=
  gets (fun w => Config.get_installation (CONFIG w) n).

Definition CONFIG_remove_installation (installation : Installation) : M unit := fun w =>
  match Config.remove_installation (CONFIG w) installation with
  | Returns c => (Returns tt, set_CONFIG c w)
  | Raises e => (Raises e, w)
  | OutOfTypes => (OutOfTypes, w)
  end.

Definition CONFIG_create_new_installation (n r : string) (print_message : bool) : M Installation :=
  c ← gets CONFIG;
  let '(c', installation) := Config.append_installation c n r in
  modify (set_CONFIG c');;
  (if print_message
   then print ("installation '" +:+ Installation.pretty_name_str (name installation) None
               +:+ "' created! (" +:+ root installation +:+ ")")
   else mret tt);;
  mret installation.

(** [Installation.ensure_exists(name, remove_if_missing=True)]. *)
Definition ensure_exists (n : string) (remove_if_missing : bool) : M Installation :=
  let missing : M Installation :=
    (if remove_if_missing
     then CONFIG_remove_installation {| name := n; root := "" |}
     else mret tt);;
    raise (InstallationDoesNotExistError n) in
  found ← CONFIG_get_installation n;
  fs ← gets disk;
  match found with
  | None => missing
  | Some installation =>
      if negb (path_exists fs (root installation)) || negb (isdir fs (root installation))
      then missing
      else mret installation
  end.

(** [Installation.ensure_does_not_exist(name)]. *)
Definition ensure_does_not_exist (n : string) : M unit :=
  found ← CONFIG_get_installation n;
  match found with
  | Some installation => raise (InstallationAlreadyExistError installation)
  | None => mret tt
  end.

(** [write_config()]: dump [CONFIG.to_dict()] over the configuration file. *)
Definition write_config : M unit := fun w =>
  if config_writable w
  then (Returns tt, set_config_file (Config.to_dict (CONFIG w)) w)
  else (Raises OSError, w).

(** [_load_config()]: parse the configuration file when it exists, otherwise
    say so and start from the empty document.  The file of a [World], when
    there is one, holds a JSON object, which is what [write_config] leaves
    there; [json.load] is its content. *)
Definition lift_outcome {A : Type} (o : outcome A) : M A := fun w => (o, w).

Definition _load_config : M Config :=
  file ← gets config_file;
  match file with
  | Some raw => lift_outcome (Config.from_dict raw)
  | None =>
      print "config file missing, creating new";;
      lift_outcome (Config.from_dict {[ "defaults" := PyDict ∅; "installations" := PyList [] ]})
  end.

(** ** remove.py *)

(** [yes_no_question] and [remove_dir] come from [fabricdw.common]: the
    answer of the user to a prompt, and the recursive deletion of a
    directory, which may fail and says what the disk is afterwards. *)
Class Collaborators : Type := {
  yes_no_question : string -> bool;
  remove_dir : string -> gmap string node -> outcome unit * gmap string node
}.

Definition call_yes_no_question `{Collaborators} (message : string) : M bool :=
  let answer := yes_no_question message in
  modify (emit (Asked message answer));; mret answer.

Definition call_remove_dir `{Collaborators} (path : string) : M unit := fun w =>
  let w1 := emit (RemovedDir path) w in
  let '(r, fs) := remove_dir path (disk w1) in (r, set_disk fs w1).

(** The two texts of [_remove_installation] that the statements below name. *)
Definition already_gone_report (a : Installation) : string :=
  "installation '" +:+ Installation.pretty_name a None +:+ "' does not exist anymore.".

Definition removal_prompt (a : Installation) : string :=
  "Remove installation '" +:+ name a +:+ "' (" +:+ root a +:+ ")?" +:+ LF
  +:+ "This will delete all files!".

Definition _remove_installation `{Collaborators}
    (active_installation : option Installation) (fallback_name : string) : M bool :=
  match active_installation with
  | None =>
      print (Fore_RED +:+ "installation '"
             +:+ Installation.pretty_name_str fallback_name (Some Fore_RED)
             +:+ "' does not exist!" +:+ Style_RESET_ALL);;
      mret false
  | Some a =>
      fs ← gets disk;
      if negb (path_exists fs (root a)) || negb (isdir fs (root a)) then
        print (already_gone_report a);;
        mret true
      else
        answer ← call_yes_no_question (removal_prompt a);
        if (answer : bool) return M bool then
          call_remove_dir (root a);;
          print ("installation '" +:+ Installation.pretty_name a None +:+ "' ("
                 +:+ root a +:+ ") deleted!");;
          mret true
        else
          print "nothing deleted";;
          mret false
  end.

(** [remove_installation(args)], with [args.name] as its argument.  When
    [active_installation] is [None] the list compares each item with [None],
    no item is equal to it, and [list.remove] raises. *)
Definition remove_installation `{Collaborators} (installation_name : string) : M unit :=
  active_installation ← CONFIG_get_installation installation_name;
  ok ← _remove_installation active_installation installation_name;
  if (ok : bool) return M unit then
    match active_installation with
    | Some a => CONFIG_remove_installation a
    | None => raise ValueError
    end
  else mret tt.

(** ** Worlds and collaborators used as concrete inputs *)

Definition inst_a : Installation := {| name := "a"; root := "/tmp/a" |}.
Definition inst_b : Installation := {| name := "b"; root := "/tmp/b" |}.

Definition world_of (l : list Installation) (fs : gmap string node) : World :=
  {| CONFIG := {| defaults := Defaults.from_dict ∅; installations := l |};
     disk := fs;
     config_file := Some (Config.to_dict {| defaults := Defaults.from_dict ∅; installations := l |});
     config_writable := true;
     events := [] |}.

(** A user who declines every prompt, and one who accepts; deleting a
    directory drops its path. *)
Definition declining_user : Collaborators :=
  {| yes_no_question := fun _ => false;
     remove_dir := fun path fs => (Returns tt, delete path fs) |}.

Definition confirming_user : Collaborators :=
  {| yes_no_question := fun _ => true;
     remove_dir := fun path fs => (Returns tt, delete path fs) |}.

(** The branch of [ensure_exists] taken for a name without a live record,
    on its own. *)
Definition ensure_exists_missing (n : string) (remove_if_missing : bool) : M Installation :=
  (if remove_if_missing
   then CONFIG_remove_installation {| name := n; root := "" |}
   else mret tt);;
  raise (InstallationDoesNotExistError n).

(** A user who accepts, on a disk that refuses the deletion. *)
Definition confirming_user_on_locked_disk : Collaborators :=
  {| yes_no_question := fun _ => true;
     remove_dir := fun path fs => (Raises OSError, fs) |}.

(** What it would mean for [remove_installation] to persist its result: after
    the call the configuration file holds the serialisation of [CONFIG]. *)
Definition persisted_after_remove `{Collaborators} (n : string) (w : World) : Prop :=
  config_file (remove_installation n w).2
  = Some (Config.to_dict (CONFIG (remove_installation n w).2)).

(** * Properties *)

(** ** Lookup and removal by name *)

Lemma lookup_name_None (l : list Installation) (n : string) :
  Config.lookup_name l n = None <-> (forall j, j ∈ l -> name j ≠ n).
Proof.
  induction l as [|x l IH]; simpl.
  - split; [intros _ j Hj; inversion Hj | done].
  - case_bool_decide as Hx.
    + split; [done | intros Hall; exfalso; apply (Hall x); [left | done]].
    + rewrite IH. split.
      * intros Hall j Hj. apply elem_of_cons in Hj as [-> | Hj]; auto.
      * intros Hall j Hj. apply Hall. by right.
Qed.

Lemma lookup_name_Some (l : list Installation) (n : string) (i : Installation) :
  Config.lookup_name l n = Some i ->
  name i = n /\
  exists l1 l2, l = l1 ++ i :: l2 /\ (forall j, j ∈ l1 -> name j ≠ n).
Proof.
  induction l as [|x l IH]; simpl; [done |].
  case_bool_decide as Hx.
  - intros [= ->]. split; [done |]. exists [], l. split; [done |].
    intros j Hj. inversion Hj.
  - intros Hl. destruct (IH Hl) as (Hn & l1 & l2 & -> & Hfirst).
    split; [done |]. exists (x :: l1), l2. split; [done |].
    intros j Hj. apply elem_of_cons in Hj as [-> | Hj]; auto.
Qed.

(** Under the registry's invariant that names are unique, the record a name
    resolves to is the record of that name. *)
Lemma lookup_name_unique (l : list Installation) (n : string) (i : Installation) :
  NoDup (name <$> l) ->
  i ∈ l ->
  name i = n ->
  Config.lookup_name l n = Some i.
Proof.
  induction l as [|x l IH]; intros Hnodup Hi Hn; [inversion Hi |].
  rewrite fmap_cons in Hnodup. apply NoDup_cons in Hnodup as [Hx Hnodup].
  simpl. apply elem_of_cons in Hi as [-> | Hi].
  - by rewrite bool_decide_eq_true_2.
  - rewrite bool_decide_eq_false_2; [by apply IH |].
    intros Hxn. apply Hx. rewrite Hxn, <- Hn.
    by apply list_elem_of_fmap_2.
Qed.

Lemma list_remove_first (l1 l2 : list Installation) (x i : Installation) :
  name x = name i ->
  (forall j, j ∈ l1 -> name j ≠ name i) ->
  list_remove Installation.__eq__ i (l1 ++ x :: l2) = Some (l1 ++ l2).
Proof.
  intros Hx. induction l1 as [|y l1 IH]; intros Hfirst; simpl.
  - unfold Installation.__eq__. rewrite bool_decide_eq_true_2; done.
  - unfold Installation.__eq__ at 1. rewrite bool_decide_eq_false_2.
    + rewrite IH; [done |]. intros j Hj. apply Hfirst. by right.
    + intros Heq. apply (Hfirst y); [left | done].
Qed.

Lemma list_remove_absent (l : list Installation) (i : Installation) :
  (forall j, j ∈ l -> name j ≠ name i) ->
  list_remove Installation.__eq__ i l = None.
Proof.
  induction l as [|y l IH]; intros Hall; simpl; [done |].
  unfold Installation.__eq__ at 1. rewrite bool_decide_eq_false_2.
  - rewrite IH; [done |]. intros j Hj. apply Hall. by right.
  - intros Heq. apply (Hall y); [left | done].
Qed.

(** Every list either splits at a first record of the given name or holds
    none. *)
Lemma first_named_or_none (l : list Installation) (n : string) :
  (exists l1 x l2, l = l1 ++ x :: l2 /\ name x = n /\ (forall j, j ∈ l1 -> name j ≠ n))
  \/ (forall j, j ∈ l -> name j ≠ n).
Proof.
  destruct (Config.lookup_name l n) as [x|] eqn:Hl.
  - left. apply lookup_name_Some in Hl as (Hn & l1 & l2 & Hsplit & Hfirst).
    by exists l1, x, l2.
  - right. by apply lookup_name_None.
Qed.

(** C9. [Config.remove_installation(i)] removes exactly the first record
    whose name equals the name of [i], whatever the roots are, and keeps
    everything else; when no record has that name it raises the
    [ValueError] of [list.remove] instead of doing nothing.  One of the two
    cases always applies. *)
Theorem remove_installation_first_by_name (c : Config) (i : Installation) :
  (forall l1 x l2,
      installations c = l1 ++ x :: l2 ->
      name x = name i ->
      (forall j, j ∈ l1 -> name j ≠ name i) ->
      Config.remove_installation c i
      = Returns {| defaults := defaults c; installations := l1 ++ l2 |})
  /\ ((forall j, j ∈ installations c -> name j ≠ name i) ->
      Config.remove_installation c i = Raises ValueError)
  /\ (forall i', name i' = name i ->
      Config.remove_installation c i' = Config.remove_installation c i)
  /\ ((exists l1 x l2, installations c = l1 ++ x :: l2 /\ name x = name i
                       /\ (forall j, j ∈ l1 -> name j ≠ name i))
      \/ (forall j, j ∈ installations c -> name j ≠ name i)).
Proof.
  repeat split.
  - intros l1 x l2 Hsplit Hx Hfirst. unfold Config.remove_installation.
    rewrite Hsplit. by rewrite list_remove_first.
  - intros Hall. unfold Config.remove_installation.
    by rewrite list_remove_absent.
  - intros i' Hi'. unfold Config.remove_installation.
    destruct (first_named_or_none (installations c) (name i))
      as [(l1 & x & l2 & Hsplit & Hx & Hfirst) | Hall].
    + rewrite Hsplit.
      rewrite (list_remove_first l1 l2 x i') by (rewrite Hi'; done).
      by rewrite (list_remove_first l1 l2 x i).
    + rewrite (list_remove_absent _ i') by (rewrite Hi'; done).
      by rewrite (list_remove_absent _ i).
  - apply first_named_or_none.
Qed.

Lemma remove_installation_first_by_name_witness :
  Config.remove_installation
    {| defaults := Defaults.from_dict ∅;
       installations := [inst_b; inst_a; {| name := "a"; root := "/srv/a" |}] |}
    {| name := "a"; root := "" |}
  = Returns {| defaults := Defaults.from_dict ∅;
               installations := [inst_b; {| name := "a"; root := "/srv/a" |}] |}
  /\ Config.remove_installation
       {| defaults := Defaults.from_dict ∅; installations := [inst_b] |} inst_a
     = Raises ValueError.
Proof.
  assert (forall j, j ∈ [inst_b] -> name j ≠ "a") as Hb.
  { intros j Hj. apply list_elem_of_singleton in Hj as ->. discriminate. }
  split.
  - exact (proj1 (remove_installation_first_by_name
                    {| defaults := Defaults.from_dict ∅;
                       installations :=
                         [inst_b; inst_a; {| name := "a"; root := "/srv/a" |}] |}
                    {| name := "a"; root := "" |})
             [inst_b] inst_a [{| name := "a"; root := "/srv/a" |}]
             eq_refl eq_refl Hb).
  - exact (proj1 (proj2 (remove_installation_first_by_name
                           {| defaults := Defaults.from_dict ∅;
                              installations := [inst_b] |} inst_a)) Hb).
Defined.

(** ** [ensure_exists] and [ensure_does_not_exist] *)

(** Runs a call one layer down: the binds of [M] and the primitive
    operations on the world. *)
Ltac run_call :=
  unfold CONFIG_get_installation, gets, modify, raise, print, mbind, M_bind, mret, M_ret;
  cbn beta iota.

Lemma CONFIG_remove_installation_first (w : World) (l1 l2 : list Installation)
    (x i : Installation) :
  installations (CONFIG w) = l1 ++ x :: l2 ->
  name x = name i ->
  (forall j, j ∈ l1 -> name j ≠ name i) ->
  CONFIG_remove_installation i w
  = (Returns tt,
     set_CONFIG {| defaults := defaults (CONFIG w); installations := l1 ++ l2 |} w).
Proof.
  intros Hsplit Hx Hfirst. unfold CONFIG_remove_installation, Config.remove_installation.
  rewrite Hsplit. by rewrite list_remove_first.
Qed.

Lemma CONFIG_remove_installation_absent (w : World) (i : Installation) :
  Config.get_installation (CONFIG w) (name i) = None ->
  CONFIG_remove_installation i w = (Raises ValueError, w).
Proof.
  intros Hnone. unfold CONFIG_remove_installation, Config.remove_installation.
  rewrite list_remove_absent; [done |]. by apply lookup_name_None.
Qed.

Lemma stale_test (fs : gmap string node) (path : string) :
  path_exists fs path = false \/ isdir fs path = false ->
  negb (path_exists fs path) || negb (isdir fs path) = true.
Proof. intros [-> | ->]; [done | apply orb_true_r]. Qed.

(** With [remove_if_missing] set and no record of that name, the removal is
    attempted all the same, and the [ValueError] of [list.remove] is what
    leaves the function. *)
Lemma ensure_exists_absent_removal_raises (w : World) (n : string) :
  Config.get_installation (CONFIG w) n = None ->
  ensure_exists n true w = (Raises ValueError, w).
Proof.
  intros Hnone. unfold ensure_exists. run_call. rewrite Hnone.
  by rewrite CONFIG_remove_installation_absent.
Qed.

(** C1. On the empty registry, [ensure_exists("missing")] with
    [remove_if_missing] at its default [True] leaves the list unchanged but
    ends in the [ValueError] of the attempted removal, not in
    [InstallationDoesNotExistError]. *)
Theorem ensure_exists_absent_default_ValueError :
  ensure_exists "missing" true (world_of [] ∅) = (Raises ValueError, world_of [] ∅)
  /\ (ensure_exists "missing" true (world_of [] ∅)).1
     ≠ Raises (InstallationDoesNotExistError "missing").
Proof.
  rewrite ensure_exists_absent_removal_raises by reflexivity.
  split; [reflexivity | discriminate].
Qed.

(** C3. When the record that the name resolves to has a root that does not
    exist or is not a directory, [ensure_exists] (with [remove_if_missing]
    true) raises [InstallationDoesNotExistError] carrying the name, and in
    the world it leaves behind that record is gone from the list: the
    records before it and after it are all there, in their order, and
    nothing else has changed. *)
Theorem ensure_exists_stale_removes_then_raises (w : World) (n : string) (i : Installation) :
  Config.get_installation (CONFIG w) n = Some i ->
  path_exists (disk w) (root i) = false \/ isdir (disk w) (root i) = false ->
  exists l1 l2 w',
    installations (CONFIG w) = l1 ++ i :: l2
    /\ (forall j, j ∈ l1 -> name j ≠ n)
    /\ ensure_exists n true w = (Raises (InstallationDoesNotExistError n), w')
    /\ installations (CONFIG w') = l1 ++ l2
    /\ defaults (CONFIG w') = defaults (CONFIG w)
    /\ disk w' = disk w
    /\ config_file w' = config_file w
    /\ config_writable w' = config_writable w
    /\ events w' = events w.
Proof.
  intros Hget Hstale.
  destruct (lookup_name_Some _ _ _ Hget) as (Hn & l1 & l2 & Hsplit & Hfirst).
  exists l1, l2,
    (set_CONFIG {| defaults := defaults (CONFIG w); installations := l1 ++ l2 |} w).
  split; [done |]. split; [done |]. split; [| done].
  unfold ensure_exists. run_call. rewrite Hget, (stale_test _ _ Hstale).
  by rewrite (CONFIG_remove_installation_first w l1 l2 i {| name := n; root := "" |}).
Qed.

Lemma ensure_exists_stale_removes_then_raises_witness :
  Config.get_installation (CONFIG (world_of [inst_b; inst_a] {[ "/tmp/b" := Dir ]})) "a"
  = Some inst_a
  /\ exists l1 l2 w',
    installations (CONFIG (world_of [inst_b; inst_a] {[ "/tmp/b" := Dir ]}))
    = l1 ++ inst_a :: l2
    /\ (forall j, j ∈ l1 -> name j ≠ "a")
    /\ ensure_exists "a" true (world_of [inst_b; inst_a] {[ "/tmp/b" := Dir ]})
       = (Raises (InstallationDoesNotExistError "a"), w')
    /\ installations (CONFIG w') = l1 ++ l2
    /\ defaults (CONFIG w') = Defaults.from_dict ∅
    /\ disk w' = {[ "/tmp/b" := Dir ]}
    /\ config_file w'
       = Some (Config.to_dict {| defaults := Defaults.from_dict ∅;
                                 installations := [inst_b; inst_a] |})
    /\ config_writable w' = true
    /\ events w' = [].
Proof.
  split; [reflexivity |].
  exact (ensure_exists_stale_removes_then_raises
           (world_of [inst_b; inst_a] {[ "/tmp/b" := Dir ]}) "a" inst_a
           eq_refl (or_introl eq_refl)).
Defined.

(** C10. With [remove_if_missing=False], a name that is absent, or whose
    record has a root that is not a live directory, makes [ensure_exists]
    raise [InstallationDoesNotExistError] and change nothing at all. *)
Theorem ensure_exists_without_removal_keeps_world (w : World) (n : string) :
  (Config.get_installation (CONFIG w) n = None
   \/ exists i, Config.get_installation (CONFIG w) n = Some i
                /\ (path_exists (disk w) (root i) = false
                    \/ isdir (disk w) (root i) = false)) ->
  ensure_exists n false w = (Raises (InstallationDoesNotExistError n), w).
Proof.
  intros [Hnone | (i & Hget & Hstale)]; unfold ensure_exists; run_call.
  - by rewrite Hnone.
  - by rewrite Hget, (stale_test _ _ Hstale).
Qed.

Lemma ensure_exists_without_removal_keeps_world_witness :
  ensure_exists "a" false (world_of [inst_b] ∅)
  = (Raises (InstallationDoesNotExistError "a"), world_of [inst_b] ∅)
  /\ ensure_exists "a" false (world_of [inst_a] {[ "/tmp/a" := File ]})
     = (Raises (InstallationDoesNotExistError "a"), world_of [inst_a] {[ "/tmp/a" := File ]}).
Proof.
  split.
  - apply ensure_exists_without_removal_keeps_world. left. reflexivity.
  - apply ensure_exists_without_removal_keeps_world. right.
    exists inst_a. split; [reflexivity | right; reflexivity].
Defined.

(** C4. [ensure_does_not_exist] raises [InstallationAlreadyExistError]
    carrying a record exactly when [get_installation] returns that record;
    the disk plays no part in the outcome; without a record it returns
    [None]; and in every case the world, the config included, is as it was. *)
Theorem ensure_does_not_exist_iff_registered (w : World) (n : string) :
  (forall i, (ensure_does_not_exist n w).1 = Raises (InstallationAlreadyExistError i)
             <-> Config.get_installation (CONFIG w) n = Some i)
  /\ ((ensure_does_not_exist n w).1 = Returns tt
      <-> Config.get_installation (CONFIG w) n = None)
  /\ (ensure_does_not_exist n w).2 = w
  /\ (forall fs, (ensure_does_not_exist n (set_disk fs w)).1 = (ensure_does_not_exist n w).1).
Proof.
  unfold ensure_does_not_exist. run_call.
  change (CONFIG (set_disk ?fs w)) with (CONFIG w).
  destruct (Config.get_installation (CONFIG w) n) as [x|]; cbn.
  - repeat split; try done; intros; congruence.
  - repeat split; done.
Qed.

(** ** Serialisation *)

Lemma Installation_to_dict_lookup (i : Installation) :
  Installation.to_dict i !! "name" = Some (PyStr (name i))
  /\ Installation.to_dict i !! "root" = Some (PyStr (root i)).
Proof. unfold Installation.to_dict. by simplify_map_eq. Qed.

Lemma Installation_from_to_dict (i : Installation) :
  Installation.from_dict (Installation.to_dict i) = Returns i.
Proof.
  destruct (Installation_to_dict_lookup i) as [Hname Hroot].
  unfold Installation.from_dict, py_getitem. rewrite Hname, Hroot.
  by destruct i.
Qed.

Lemma Defaults_from_to_dict (d : Defaults) :
  Defaults.from_dict (Defaults.to_dict d) = d.
Proof.
  destruct d as [a b c e].
  unfold Defaults.from_dict, Defaults.__init__, Defaults.to_dict, _default_get.
  cbn [min_ram max_ram idle_time backups].
  by simplify_map_eq.
Qed.

Lemma _default_get_any_dict (d : gmap string pyobj) (key : string) (fallback : pyobj) :
  _default_get_any (PyDict d) key fallback = Returns (_default_get d key fallback).
Proof.
  unfold _default_get_any, _default_get, py_contains, py_getitem.
  cbn [mbind outcome_bind]. by destruct (d !! key).
Qed.

(** On a dict, the general reading of [Defaults.from_dict] is the one on
    dicts. *)
Lemma Defaults_from_obj_dict (d : gmap string pyobj) :
  Defaults.from_obj (PyDict d) = Returns (Defaults.from_dict d).
Proof.
  unfold Defaults.from_obj. by rewrite !_default_get_any_dict.
Qed.

Lemma Installation_from_obj_dict (d : gmap string pyobj) :
  Installation.from_obj (PyDict d) = Installation.from_dict d.
Proof. reflexivity. Qed.

Lemma comprehension_to_dict (l : list Installation) :
  comprehension Installation.from_obj ((fun i => PyDict (Installation.to_dict i)) <$> l)
  = Returns l.
Proof.
  induction l as [|x l IH]; [done |].
  rewrite fmap_cons. cbn [comprehension].
  rewrite IH, Installation_from_obj_dict, Installation_from_to_dict. done.
Qed.

Lemma Config_to_dict_lookup (c : Config) :
  Config.to_dict c !! "defaults" = Some (PyDict (Defaults.to_dict (defaults c)))
  /\ Config.to_dict c !! "installations"
     = Some (PyList ((fun i => PyDict (Installation.to_dict i)) <$> installations c)).
Proof. unfold Config.to_dict. by simplify_map_eq. Qed.

Lemma Config_from_to_dict (c : Config) :
  Config.from_dict (Config.to_dict c) = Returns c.
Proof.
  destruct (Config_to_dict_lookup c) as [Hdefaults Hinstallations].
  unfold Config.from_dict, py_getitem. rewrite Hdefaults, Hinstallations.
  cbn [mbind outcome_bind]. rewrite Defaults_from_obj_dict.
  cbn [py_iter mbind outcome_bind].
  rewrite comprehension_to_dict. cbn [mbind outcome_bind].
  rewrite Defaults_from_to_dict. by destruct c.
Qed.

(** C5. Deserialising the serialisation of a config succeeds, and the
    result has the same sequence of (name, root) pairs and the same four
    default values as the config it came from. *)
Theorem Config_roundtrip (c : Config) :
  exists c',
    Config.from_dict (Config.to_dict c) = Returns c'
    /\ (fun i => (name i, root i)) <$> installations c'
       = (fun i => (name i, root i)) <$> installations c
    /\ min_ram (defaults c') = min_ram (defaults c)
    /\ max_ram (defaults c') = max_ram (defaults c)
    /\ idle_time (defaults c') = idle_time (defaults c)
    /\ backups (defaults c') = backups (defaults c).
Proof.
  exists c. by rewrite Config_from_to_dict.
Qed.

(** C6. [Defaults.from_dict] settles each of the four fields on its own:
    the value under the field's key when the key is present, the hard-coded
    fallback (0.5, 6, 0, 5) when it is not, and a value stored under any
    other key changes nothing for the field.  The empty dict gives
    (0.5, 6, 0, 5); a dict with only ["min-ram"] at 1.0 gives
    (1.0, 6, 0, 5). *)
Theorem Defaults_from_dict_field_by_field (d : gmap string pyobj) :
  (min_ram (Defaults.from_dict d) = default (PyFloat float_0_5) (d !! "min-ram")
   /\ max_ram (Defaults.from_dict d) = default (PyInt 6) (d !! "max-ram")
   /\ idle_time (Defaults.from_dict d) = default (PyInt 0) (d !! "idle_time")
   /\ backups (Defaults.from_dict d) = default (PyInt 5) (d !! "backups"))
  /\ (forall k v,
        (k ≠ "min-ram" ->
           min_ram (Defaults.from_dict (<[k:=v]> d)) = min_ram (Defaults.from_dict d))
        /\ (k ≠ "max-ram" ->
           max_ram (Defaults.from_dict (<[k:=v]> d)) = max_ram (Defaults.from_dict d))
        /\ (k ≠ "idle_time" ->
           idle_time (Defaults.from_dict (<[k:=v]> d)) = idle_time (Defaults.from_dict d))
        /\ (k ≠ "backups" ->
           backups (Defaults.from_dict (<[k:=v]> d)) = backups (Defaults.from_dict d)))
  /\ Defaults.from_dict ∅
     = {| min_ram := PyFloat float_0_5; max_ram := PyInt 6;
          idle_time := PyInt 0; backups := PyInt 5 |}
  /\ Defaults.from_dict {[ "min-ram" := PyFloat float_1_0 ]}
     = {| min_ram := PyFloat float_1_0; max_ram := PyInt 6;
          idle_time := PyInt 0; backups := PyInt 5 |}.
Proof.
  unfold Defaults.from_dict, Defaults.__init__, _default_get.
  cbn [min_ram max_ram idle_time backups].
  split; [| split; [| split]].
  - repeat split; by destruct (d !! _).
  - intros k v. repeat split; intros Hk; by rewrite lookup_insert_ne.
  - reflexivity.
  - reflexivity.
Qed.

(** ** Removing an installation *)

Section Remover.
Context `{Collaborators}.

Lemma _remove_installation_stale (w : World) (n : string) (i : Installation) :
  path_exists (disk w) (root i) = false \/ isdir (disk w) (root i) = false ->
  _remove_installation (Some i) n w
  = (Returns true, emit (Printed (already_gone_report i)) w).
Proof.
  intros Hstale. unfold _remove_installation. run_call.
  by rewrite (stale_test _ _ Hstale).
Qed.

Lemma _remove_installation_declined (w : World) (n : string) (i : Installation) :
  path_exists (disk w) (root i) = true ->
  isdir (disk w) (root i) = true ->
  yes_no_question (removal_prompt i) = false ->
  _remove_installation (Some i) n w
  = (Returns false,
     emit (Printed "nothing deleted") (emit (Asked (removal_prompt i) false) w)).
Proof.
  intros Hexists Hisdir Hno. unfold _remove_installation, call_yes_no_question. run_call.
  by rewrite Hexists, Hisdir, Hno.
Qed.

Lemma _remove_installation_confirmed (w : World) (n : string) (i : Installation)
    (r : outcome unit) (fs : gmap string node) :
  path_exists (disk w) (root i) = true ->
  isdir (disk w) (root i) = true ->
  yes_no_question (removal_prompt i) = true ->
  remove_dir (root i) (disk w) = (r, fs) ->
  let w1 := set_disk fs (emit (RemovedDir (root i)) (emit (Asked (removal_prompt i) true) w)) in
  _remove_installation (Some i) n w
  = match r with
    | Returns _ =>
        (Returns true,
         emit (Printed ("installation '" +:+ Installation.pretty_name i None +:+ "' ("
                        +:+ root i +:+ ") deleted!")) w1)
    | Raises e => (Raises e, w1)
    | OutOfTypes => (OutOfTypes, w1)
    end.
Proof.
  intros Hexists Hisdir Hyes Hrm.
  unfold _remove_installation, call_yes_no_question, call_remove_dir. run_call.
  rewrite Hexists, Hisdir, Hyes. cbn [negb orb disk emit]. rewrite Hrm.
  by destruct r.
Qed.

(** The two ways [_remove_installation] returns [True]: the root is gone,
    or the user confirmed and the directory removal went through. *)
Lemma _remove_installation_success_paths (w w1 : World) (n : string) (i : Installation) :
  _remove_installation (Some i) n w = (Returns true, w1) ->
  (path_exists (disk w) (root i) = false \/ isdir (disk w) (root i) = false)
  \/ (path_exists (disk w) (root i) = true
      /\ isdir (disk w) (root i) = true
      /\ yes_no_question (removal_prompt i) = true
      /\ exists fs, remove_dir (root i) (disk w) = (Returns tt, fs)).
Proof.
  destruct (path_exists (disk w) (root i)) eqn:Hexists; [| by left; left].
  destruct (isdir (disk w) (root i)) eqn:Hisdir; [| by left; right].
  destruct (yes_no_question (removal_prompt i)) eqn:Hanswer.
  - destruct (remove_dir (root i) (disk w)) as [r fs] eqn:Hrm.
    rewrite (_remove_installation_confirmed w n i r fs) by done.
    destruct r as [[]|e|]; [| done | done].
    intros _. right. repeat split. by exists fs.
  - by rewrite _remove_installation_declined.
Qed.

(** [_remove_installation] touches the disk and the terminal only. *)
Lemma _remove_installation_frame (w w1 : World) (n : string)
    (active : option Installation) (r : outcome bool) :
  _remove_installation active n w = (r, w1) ->
  CONFIG w1 = CONFIG w
  /\ config_file w1 = config_file w
  /\ config_writable w1 = config_writable w.
Proof.
  unfold _remove_installation, call_yes_no_question, call_remove_dir. run_call.
  destruct active as [a|]; [| by intros [= <- <-]].
  destruct (negb (path_exists (disk w) (root a)) || negb (isdir (disk w) (root a)));
    [by intros [= <- <-] |].
  destruct (yes_no_question (removal_prompt a)); [| by intros [= <- <-]].
  cbn [disk emit]. destruct (remove_dir (root a) (disk w)) as [[[]|e|] fs];
    by intros [= <- <-].
Qed.

(** C7. When the record that the name resolves to has a root that fails the
    live-directory check, [_remove_installation] prints the line
    [installation '<name>' does not exist anymore.] and returns [True]; the caller
    [remove_installation] then takes that record out of the list.  Nothing
    is asked, no directory removal is called, the disk is as it was. *)
Theorem remove_installation_stale_record (w : World) (n : string) (i : Installation) :
  Config.get_installation (CONFIG w) n = Some i ->
  path_exists (disk w) (root i) = false \/ isdir (disk w) (root i) = false ->
  exists l1 l2 w',
    installations (CONFIG w) = l1 ++ i :: l2
    /\ (forall j, j ∈ l1 -> name j ≠ n)
    /\ _remove_installation (Some i) n w
       = (Returns true,
          emit (Printed ("installation '" +:+ Installation.pretty_name i None
                         +:+ "' does not exist anymore.")) w)
    /\ remove_installation n w = (Returns tt, w')
    /\ CONFIG w' = {| defaults := defaults (CONFIG w); installations := l1 ++ l2 |}
    /\ disk w' = disk w
    /\ events w'
       = events w
         ++ [Printed ("installation '" +:+ Installation.pretty_name i None
                      +:+ "' does not exist anymore.")].
Proof.
  intros Hget Hstale.
  destruct (lookup_name_Some _ _ _ Hget) as (Hn & l1 & l2 & Hsplit & Hfirst).
  exists l1, l2,
    (set_CONFIG {| defaults := defaults (CONFIG w); installations := l1 ++ l2 |}
       (emit (Printed (already_gone_report i)) w)).
  split; [done |]. split; [done |].
  split; [by apply _remove_installation_stale |].
  split; [| done].
  unfold remove_installation. run_call.
  rewrite Hget, (_remove_installation_stale _ _ _ Hstale).
  rewrite (CONFIG_remove_installation_first _ l1 l2 i i); [done | done | done |].
  by rewrite Hn.
Qed.

(** C8. When the record that the name resolves to is live and the user
    declines the prompt, [_remove_installation] returns [False] and
    [remove_installation] ends without touching the list or the disk: the
    only things that happened are the question and the line
    [nothing deleted]. *)
Theorem remove_installation_declined (w : World) (n : string) (i : Installation) :
  Config.get_installation (CONFIG w) n = Some i ->
  path_exists (disk w) (root i) = true ->
  isdir (disk w) (root i) = true ->
  yes_no_question (removal_prompt i) = false ->
  exists w',
    _remove_installation (Some i) n w = (Returns false, w')
    /\ remove_installation n w = (Returns tt, w')
    /\ CONFIG w' = CONFIG w
    /\ disk w' = disk w
    /\ events w' = events w ++ [Asked (removal_prompt i) false; Printed "nothing deleted"].
Proof.
  intros Hget Hexists Hisdir Hno.
  exists (emit (Printed "nothing deleted") (emit (Asked (removal_prompt i) false) w)).
  split; [by apply _remove_installation_declined |].
  split.
  - unfold remove_installation. run_call.
    by rewrite Hget, (_remove_installation_declined _ _ _ Hexists Hisdir Hno).
  - repeat split. cbn. by rewrite <- app_assoc.
Qed.

(** C2 (amended). Whenever [_remove_installation] reports success for the
    record the name resolves to, [remove_installation] takes that record
    out of the in-memory list and returns [None], and the configuration
    file is what it was before the call: nothing is written.  The removal
    reaches the file only through a later [write_config()], which stores
    the serialisation of the updated config. *)
Theorem remove_installation_updates_memory_only
    (w w1 : World) (n : string) (i : Installation) :
  Config.get_installation (CONFIG w) n = Some i ->
  _remove_installation (Some i) n w = (Returns true, w1) ->
  exists l1 l2 w2,
    installations (CONFIG w) = l1 ++ i :: l2
    /\ (forall j, j ∈ l1 -> name j ≠ n)
    /\ remove_installation n w = (Returns tt, w2)
    /\ CONFIG w2 = {| defaults := defaults (CONFIG w); installations := l1 ++ l2 |}
    /\ config_file w2 = config_file w
    /\ (config_writable w = true ->
        write_config w2 = (Returns tt, set_config_file (Config.to_dict (CONFIG w2)) w2)
        /\ config_file (write_config w2).2
           = Some (Config.to_dict {| defaults := defaults (CONFIG w);
                                     installations := l1 ++ l2 |})).
Proof.
  intros Hget Hok.
  destruct (lookup_name_Some _ _ _ Hget) as (Hn & l1 & l2 & Hsplit & Hfirst).
  destruct (_remove_installation_frame _ _ _ _ _ Hok) as (HC & Hfile & Hwritable).
  exists l1, l2,
    (set_CONFIG {| defaults := defaults (CONFIG w); installations := l1 ++ l2 |} w1).
  split; [done |]. split; [done |]. split.
  - unfold remove_installation. run_call. rewrite Hget, Hok.
    rewrite (CONFIG_remove_installation_first w1 l1 l2 i i);
      [by rewrite HC | by rewrite HC | done |].
    by rewrite Hn.
  - split; [done |]. split; [done |].
    intros Hw. unfold write_config. cbn [config_writable set_CONFIG].
    by rewrite Hwritable, Hw.
Qed.

End Remover.

Lemma remove_installation_stale_record_witness :
  Config.get_installation (CONFIG (world_of [inst_b; inst_a] {[ "/tmp/b" := Dir ]})) "a"
  = Some inst_a
  /\ exists l1 l2 w',
    installations (CONFIG (world_of [inst_b; inst_a] {[ "/tmp/b" := Dir ]}))
    = l1 ++ inst_a :: l2
    /\ (forall j, j ∈ l1 -> name j ≠ "a")
    /\ @_remove_installation declining_user (Some inst_a) "a"
         (world_of [inst_b; inst_a] {[ "/tmp/b" := Dir ]})
       = (Returns true,
          emit (Printed ("installation '" +:+ Installation.pretty_name inst_a None
                         +:+ "' does not exist anymore."))
            (world_of [inst_b; inst_a] {[ "/tmp/b" := Dir ]}))
    /\ @remove_installation declining_user "a"
         (world_of [inst_b; inst_a] {[ "/tmp/b" := Dir ]})
       = (Returns tt, w')
    /\ CONFIG w' = {| defaults := Defaults.from_dict ∅; installations := l1 ++ l2 |}
    /\ disk w' = {[ "/tmp/b" := Dir ]}
    /\ events w'
       = [] ++ [Printed ("installation '" +:+ Installation.pretty_name inst_a None
                         +:+ "' does not exist anymore.")].
Proof.
  split; [reflexivity |].
  exact (@remove_installation_stale_record declining_user
           (world_of [inst_b; inst_a] {[ "/tmp/b" := Dir ]}) "a" inst_a
           eq_refl (or_introl eq_refl)).
Defined.

Lemma remove_installation_declined_witness :
  exists w',
    @_remove_installation declining_user (Some inst_b) "b"
      (world_of [inst_b] {[ "/tmp/b" := Dir ]})
    = (Returns false, w')
    /\ @remove_installation declining_user "b" (world_of [inst_b] {[ "/tmp/b" := Dir ]})
       = (Returns tt, w')
    /\ CONFIG w' = CONFIG (world_of [inst_b] {[ "/tmp/b" := Dir ]})
    /\ disk w' = {[ "/tmp/b" := Dir ]}
    /\ events w' = [] ++ [Asked (removal_prompt inst_b) false; Printed "nothing deleted"].
Proof.
  exact (@remove_installation_declined declining_user
           (world_of [inst_b] {[ "/tmp/b" := Dir ]}) "b" inst_b
           eq_refl eq_refl eq_refl eq_refl).
Defined.

Lemma remove_installation_updates_memory_only_witness :
  @_remove_installation confirming_user (Some inst_a) "a"
    (world_of [inst_a; inst_b] {[ "/tmp/a" := Dir ]})
  = (Returns true,
     (@_remove_installation confirming_user (Some inst_a) "a"
        (world_of [inst_a; inst_b] {[ "/tmp/a" := Dir ]})).2)
  /\ exists l1 l2 w2,
    installations (CONFIG (world_of [inst_a; inst_b] {[ "/tmp/a" := Dir ]}))
    = l1 ++ inst_a :: l2
    /\ (forall j, j ∈ l1 -> name j ≠ "a")
    /\ @remove_installation confirming_user "a"
         (world_of [inst_a; inst_b] {[ "/tmp/a" := Dir ]})
       = (Returns tt, w2)
    /\ CONFIG w2 = {| defaults := Defaults.from_dict ∅; installations := l1 ++ l2 |}
    /\ config_file w2
       = Some (Config.to_dict {| defaults := Defaults.from_dict ∅;
                                 installations := [inst_a; inst_b] |})
    /\ (true = true ->
        write_config w2 = (Returns tt, set_config_file (Config.to_dict (CONFIG w2)) w2)
        /\ config_file (write_config w2).2
           = Some (Config.to_dict {| defaults := Defaults.from_dict ∅;
                                     installations := l1 ++ l2 |})).
Proof.
  split; [reflexivity |].
  exact (@remove_installation_updates_memory_only confirming_user
           (world_of [inst_a; inst_b] {[ "/tmp/a" := Dir ]})
           (@_remove_installation confirming_user (Some inst_a) "a"
              (world_of [inst_a; inst_b] {[ "/tmp/a" := Dir ]})).2
           "a" inst_a eq_refl eq_refl).
Defined.

(** C2, as stated, fails: the registry holds [a] at a root that is gone and
    the file is in step with it; [remove_installation] succeeds and empties
    the in-memory list, yet the file still lists [a]. *)
Lemma remove_installation_does_not_persist :
  @remove_installation declining_user "a" (world_of [inst_a] ∅)
  = (Returns tt,
     set_CONFIG {| defaults := Defaults.from_dict ∅; installations := [] |}
       (emit (Printed (already_gone_report inst_a)) (world_of [inst_a] ∅)))
  /\ config_file (@remove_installation declining_user "a" (world_of [inst_a] ∅)).2
     = Some (Config.to_dict {| defaults := Defaults.from_dict ∅; installations := [inst_a] |})
  /\ ~ @persisted_after_remove declining_user "a" (world_of [inst_a] ∅).
Proof.
  split; [reflexivity |]. split; [reflexivity |].
  unfold persisted_after_remove. intros Hsame.
  apply (f_equal (fun o => o ≫= (.!! "installations"))) in Hsame.
  vm_compute in Hsame. discriminate Hsame.
Qed.

(** * Further properties of the code *)

(** ** The registry: lookup, creation, removal *)

Lemma lookup_name_app (l1 l2 : list Installation) (n : string) :
  Config.lookup_name (l1 ++ l2) n
  = match Config.lookup_name l1 n with
    | Some i => Some i
    | None => Config.lookup_name l2 n
    end.
Proof.
  induction l1 as [|x l1 IH]; simpl; [done |].
  by case_bool_decide.
Qed.

Lemma lookup_name_split (l1 l2 : list Installation) (i : Installation) (n : string) :
  name i = n ->
  (forall j, j ∈ l1 -> name j ≠ n) ->
  Config.lookup_name (l1 ++ i :: l2) n = Some i.
Proof.
  intros Hn Hfirst. rewrite lookup_name_app.
  rewrite (proj2 (lookup_name_None l1 n) Hfirst). simpl.
  by rewrite bool_decide_eq_true_2.
Qed.

Lemma lookup_name_skip (l1 l2 : list Installation) (x : Installation) (m : string) :
  name x ≠ m ->
  Config.lookup_name (l1 ++ x :: l2) m = Config.lookup_name (l1 ++ l2) m.
Proof.
  intros Hx. rewrite !lookup_name_app. simpl.
  by rewrite bool_decide_eq_false_2.
Qed.

Lemma remove_installation_Returns (c c' : Config) (i : Installation) :
  Config.remove_installation c i = Returns c' ->
  exists l1 x l2,
    installations c = l1 ++ x :: l2
    /\ name x = name i
    /\ (forall j, j ∈ l1 -> name j ≠ name i)
    /\ c' = {| defaults := defaults c; installations := l1 ++ l2 |}.
Proof.
  unfold Config.remove_installation.
  destruct (first_named_or_none (installations c) (name i))
    as [(l1 & x & l2 & Hsplit & Hx & Hfirst) | Hall].
  - rewrite Hsplit, list_remove_first by done. intros [= <-].
    by exists l1, x, l2.
  - by rewrite list_remove_absent.
Qed.

(** X1. [get_installation] returns [None] exactly when no record has the
    name, and returns a record exactly when that record is the first one of
    the list with the name. *)
Theorem get_installation_first_match (c : Config) (n : string) :
  (Config.get_installation c n = None
   <-> forall j, j ∈ installations c -> name j ≠ n)
  /\ (forall i,
        Config.get_installation c n = Some i
        <-> exists l1 l2,
              installations c = l1 ++ i :: l2
              /\ name i = n
              /\ forall j, j ∈ l1 -> name j ≠ n).
Proof.
  unfold Config.get_installation. split; [apply lookup_name_None |].
  intros i. split.
  - intros Hget. destruct (lookup_name_Some _ _ _ Hget) as (Hn & l1 & l2 & Hsplit & Hfirst).
    by exists l1, l2.
  - intros (l1 & l2 & -> & Hn & Hfirst). by apply lookup_name_split.
Qed.

(** X2. [create_new_installation] puts the new record at the end of the
    list and returns it, prints its one line only when [print_message] is
    set, and touches nothing else.  It does not look at the names already
    there: when the name is taken the old record stays the one the name
    resolves to; every other name resolves as before. *)
Theorem create_new_installation_appends (w : World) (n r : string) (print_message : bool) :
  exists w',
    CONFIG_create_new_installation n r print_message w
    = (Returns {| name := n; root := r |}, w')
    /\ installations (CONFIG w') = installations (CONFIG w) ++ [{| name := n; root := r |}]
    /\ defaults (CONFIG w') = defaults (CONFIG w)
    /\ disk w' = disk w
    /\ config_file w' = config_file w
    /\ events w'
       = events w
         ++ (if print_message
             then [Printed ("installation '" +:+ Installation.pretty_name_str n None
                            +:+ "' created! (" +:+ r +:+ ")")]
             else [])
    /\ Config.get_installation (CONFIG w') n
       = Some (default {| name := n; root := r |} (Config.get_installation (CONFIG w) n))
    /\ (forall m, m ≠ n ->
          Config.get_installation (CONFIG w') m = Config.get_installation (CONFIG w) m).
Proof.
  set (c' := {| defaults := defaults (CONFIG w);
                installations := installations (CONFIG w) ++ [{| name := n; root := r |}] |}).
  exists (if print_message
          then emit (Printed ("installation '" +:+ Installation.pretty_name_str n None
                              +:+ "' created! (" +:+ r +:+ ")")) (set_CONFIG c' w)
          else set_CONFIG c' w).
  split.
  { unfold CONFIG_create_new_installation, Config.append_installation. run_call.
    by destruct print_message. }
  assert (Config.get_installation c' n
          = Some (default {| name := n; root := r |} (Config.get_installation (CONFIG w) n))
          /\ (forall m, m ≠ n ->
                Config.get_installation c' m = Config.get_installation (CONFIG w) m))
    as [Hsame Hother].
  { unfold Config.get_installation, c'. cbn [installations]. split.
    - rewrite lookup_name_app. cbn [Config.lookup_name name].
      rewrite bool_decide_eq_true_2 by done.
      by destruct (Config.lookup_name (installations (CONFIG w)) n).
    - intros m Hm. rewrite lookup_name_app. cbn [Config.lookup_name name].
      rewrite bool_decide_eq_false_2 by done.
      by destruct (Config.lookup_name (installations (CONFIG w)) m). }
  destruct print_message; cbn [CONFIG disk config_file events emit set_CONFIG];
    repeat split; try done.
  by rewrite app_nil_r.
Qed.

Lemma ensure_does_not_exist_Returns (w : World) (n : string) :
  (ensure_does_not_exist n w).1 = Returns tt ->
  Config.get_installation (CONFIG w) n = None.
Proof.
  unfold ensure_does_not_exist. run_call.
  by destruct (Config.get_installation (CONFIG w) n).
Qed.

(** X3. Names stay unique when [ensure_does_not_exist] has passed before a
    creation: from a list without two records of one name, a creation that
    follows a successful [ensure_does_not_exist] of the same name gives a
    list without two records of one name. *)
Theorem checked_create_keeps_names_unique (w : World) (n r : string) (print_message : bool) :
  NoDup (name <$> installations (CONFIG w)) ->
  (ensure_does_not_exist n w).1 = Returns tt ->
  NoDup (name <$> installations
                    (CONFIG (CONFIG_create_new_installation n r print_message w).2)).
Proof.
  intros Hnodup Hfree.
  apply ensure_does_not_exist_Returns in Hfree.
  destruct (create_new_installation_appends w n r print_message)
    as (w' & Hrun & Hlist & _).
  rewrite Hrun. cbn [snd]. rewrite Hlist, fmap_app. apply NoDup_app. split; [done |]. split.
  - intros m Hm Hin. apply list_elem_of_singleton in Hin as ->.
    apply list_elem_of_fmap in Hm as (j & Hj & Hin).
    by apply (proj1 (lookup_name_None _ _) Hfree j).
  - apply NoDup_singleton.
Qed.

Lemma checked_create_keeps_names_unique_witness :
  NoDup (name <$> installations
                    (CONFIG (CONFIG_create_new_installation "b" "/tmp/b" true
                               (world_of [inst_a] ∅)).2)).
Proof.
  apply (checked_create_keeps_names_unique (world_of [inst_a] ∅) "b" "/tmp/b" true).
  - compute_done.
  - reflexivity.
Defined.

(** X4. The creation itself does not check: creating a name that the
    registry already resolves leaves two records of that name in the list. *)
Theorem unchecked_create_duplicates_name
    (w : World) (n r : string) (print_message : bool) (i : Installation) :
  Config.get_installation (CONFIG w) n = Some i ->
  ~ NoDup (name <$> installations
                      (CONFIG (CONFIG_create_new_installation n r print_message w).2)).
Proof.
  intros Hget Hnodup.
  destruct (lookup_name_Some _ _ _ Hget) as (Hn & l1 & l2 & Hsplit & _).
  destruct (create_new_installation_appends w n r print_message)
    as (w' & Hrun & Hlist & _).
  rewrite Hrun in Hnodup. cbn [snd] in Hnodup.
  rewrite Hlist, fmap_app in Hnodup.
  apply NoDup_app in Hnodup as (_ & Hdisjoint & _).
  apply (Hdisjoint n).
  - rewrite Hsplit, <- Hn. apply list_elem_of_fmap_2. set_solver.
  - set_solver.
Qed.

Lemma unchecked_create_duplicates_name_witness :
  ~ NoDup (name <$> installations
                      (CONFIG (CONFIG_create_new_installation "a" "/srv/a" false
                                 (world_of [inst_a] ∅)).2)).
Proof.
  apply (unchecked_create_duplicates_name (world_of [inst_a] ∅) "a" "/srv/a" false inst_a).
  reflexivity.
Defined.

(** X5. Creating and then removing by name: when the name was free, the
    removal takes the new record out again and the config is what it was;
    when the name was taken, the removal takes out the old record, the first
    of that name, and the new one stays. *)
Theorem create_then_remove (c : Config) (n r r' : string) :
  (Config.get_installation c n = None ->
   Config.remove_installation (Config.append_installation c n r).1 {| name := n; root := r' |}
   = Returns c)
  /\ (forall i, Config.get_installation c n = Some i ->
      exists l1 l2,
        installations c = l1 ++ i :: l2
        /\ Config.remove_installation (Config.append_installation c n r).1
             {| name := n; root := r' |}
           = Returns {| defaults := defaults c;
                        installations := l1 ++ l2 ++ [{| name := n; root := r |}] |}).
Proof.
  unfold Config.get_installation, Config.remove_installation, Config.append_installation.
  cbn [fst installations defaults]. split.
  - intros Hfree.
    rewrite (list_remove_first (installations c) [] {| name := n; root := r |}
               {| name := n; root := r' |}); [| done | by apply lookup_name_None].
    rewrite app_nil_r. by destruct c.
  - intros i Hget. destruct (lookup_name_Some _ _ _ Hget) as (Hn & l1 & l2 & Hsplit & Hfirst).
    exists l1, l2. split; [done |].
    rewrite Hsplit, <- app_assoc. cbn [app].
    by rewrite (list_remove_first l1 (l2 ++ [{| name := n; root := r |}]) i
                  {| name := n; root := r' |}).
Qed.

Lemma create_then_remove_witness :
  Config.remove_installation
    (Config.append_installation
       {| defaults := Defaults.from_dict ∅; installations := [inst_b] |} "a" "/tmp/a").1
    {| name := "a"; root := "" |}
  = Returns {| defaults := Defaults.from_dict ∅; installations := [inst_b] |}
  /\ exists l1 l2,
       [inst_a; inst_b] = l1 ++ inst_a :: l2
       /\ Config.remove_installation
            (Config.append_installation
               {| defaults := Defaults.from_dict ∅; installations := [inst_a; inst_b] |}
               "a" "/srv/a").1
            {| name := "a"; root := "" |}
          = Returns {| defaults := Defaults.from_dict ∅;
                       installations := l1 ++ l2 ++ [{| name := "a"; root := "/srv/a" |}] |}.
Proof.
  split.
  - exact (proj1 (create_then_remove
                    {| defaults := Defaults.from_dict ∅; installations := [inst_b] |}
                    "a" "/tmp/a" "") eq_refl).
  - exact (proj2 (create_then_remove
                    {| defaults := Defaults.from_dict ∅; installations := [inst_a; inst_b] |}
                    "a" "/srv/a" "") inst_a eq_refl).
Defined.

(** X6. A successful [remove_installation] shortens the list by exactly one
    record and keeps the defaults; every other name resolves as before; and
    when the names were unique they still are, and the removed name no
    longer resolves. *)
Theorem remove_installation_effect (c c' : Config) (i : Installation) :
  Config.remove_installation c i = Returns c' ->
  length (installations c) = S (length (installations c'))
  /\ defaults c' = defaults c
  /\ (forall m, m ≠ name i -> Config.get_installation c' m = Config.get_installation c m)
  /\ (NoDup (name <$> installations c) ->
      NoDup (name <$> installations c')
      /\ Config.get_installation c' (name i) = None).
Proof.
  intros Hrm.
  destruct (remove_installation_Returns _ _ _ Hrm) as (l1 & x & l2 & Hsplit & Hx & Hfirst & ->).
  unfold Config.get_installation. cbn [installations defaults]. rewrite Hsplit.
  split; [rewrite !length_app; simpl; lia |]. split; [done |]. split.
  - intros m Hm. symmetry. apply lookup_name_skip. congruence.
  - rewrite !fmap_app, fmap_cons. intros Hnodup.
    apply NoDup_app in Hnodup as (Hl1 & Hdisjoint & Hrest).
    apply NoDup_cons in Hrest as [Hxl2 Hl2].
    split.
    + apply NoDup_app. split; [done |]. split; [| done].
      intros m Hm Hin. apply (Hdisjoint m Hm). by right.
    + apply lookup_name_None. intros j Hj Hname.
      apply elem_of_app in Hj as [Hj | Hj].
      * by apply (Hfirst j).
      * apply Hxl2. rewrite Hx, <- Hname. by apply list_elem_of_fmap_2.
Qed.

Lemma remove_installation_effect_witness :
  length [inst_a; inst_b] = S (length [inst_b])
  /\ defaults {| defaults := Defaults.from_dict ∅; installations := [inst_b] |}
     = Defaults.from_dict ∅
  /\ (forall m, m ≠ "a" ->
        Config.get_installation
          {| defaults := Defaults.from_dict ∅; installations := [inst_b] |} m
        = Config.get_installation
            {| defaults := Defaults.from_dict ∅; installations := [inst_a; inst_b] |} m)
  /\ (NoDup (name <$> [inst_a; inst_b]) ->
      NoDup (name <$> [inst_b])
      /\ Config.get_installation
           {| defaults := Defaults.from_dict ∅; installations := [inst_b] |} "a" = None).
Proof.
  exact (remove_installation_effect
           {| defaults := Defaults.from_dict ∅; installations := [inst_a; inst_b] |}
           {| defaults := Defaults.from_dict ∅; installations := [inst_b] |}
           {| name := "a"; root := "" |} eq_refl).
Defined.

(** ** [ensure_exists] beyond the failing cases *)

Lemma NoDup_names_removed (l1 l2 : list Installation) (x : Installation) :
  NoDup (name <$> l1 ++ x :: l2) ->
  NoDup (name <$> l1 ++ l2) /\ Config.lookup_name (l1 ++ l2) (name x) = None.
Proof.
  rewrite !fmap_app, fmap_cons. intros Hnodup.
  apply NoDup_app in Hnodup as (Hl1 & Hdisjoint & Hrest).
  apply NoDup_cons in Hrest as [Hxl2 Hl2]. split.
  - apply NoDup_app. split; [done |]. split; [| done].
    intros m Hm Hin. apply (Hdisjoint m Hm). by right.
  - apply lookup_name_None. intros j Hj Hname.
    apply elem_of_app in Hj as [Hj | Hj].
    + apply (Hdisjoint (name j)); [by apply list_elem_of_fmap_2 |].
      rewrite Hname. by left.
    + apply Hxl2. rewrite <- Hname. by apply list_elem_of_fmap_2.
Qed.

(** What the removal on the global [CONFIG] can do to the world: nothing,
    or take out the first record of the name. *)
Lemma CONFIG_remove_installation_cases (w : World) (i : Installation) :
  CONFIG_remove_installation i w = (Raises ValueError, w)
  \/ exists l1 x l2,
       installations (CONFIG w) = l1 ++ x :: l2
       /\ name x = name i
       /\ (forall j, j ∈ l1 -> name j ≠ name i)
       /\ CONFIG_remove_installation i w
          = (Returns tt,
             set_CONFIG {| defaults := defaults (CONFIG w); installations := l1 ++ l2 |} w).
Proof.
  destruct (first_named_or_none (installations (CONFIG w)) (name i))
    as [(l1 & x & l2 & Hsplit & Hx & Hfirst) | Hall].
  - right. exists l1, x, l2. repeat split; try done.
    by apply (CONFIG_remove_installation_first w l1 l2 x i).
  - left. apply CONFIG_remove_installation_absent. by apply lookup_name_None.
Qed.

Lemma ensure_exists_unfold (w : World) (n : string) (remove_if_missing : bool) :
  ensure_exists n remove_if_missing w
  = match Config.get_installation (CONFIG w) n with
    | None => ensure_exists_missing n remove_if_missing w
    | Some i =>
        if negb (path_exists (disk w) (root i)) || negb (isdir (disk w) (root i))
        then ensure_exists_missing n remove_if_missing w
        else (Returns i, w)
    end.
Proof.
  unfold ensure_exists, ensure_exists_missing. run_call.
  destruct (Config.get_installation (CONFIG w) n) as [x|]; [| done].
  by destruct (negb (path_exists (disk w) (root x)) || negb (isdir (disk w) (root x))).
Qed.

(** The missing branch never returns; it leaves the world alone or takes out
    the first record of the name. *)
Lemma ensure_exists_missing_cases (w : World) (n : string) (remove_if_missing : bool) :
  (exists e, ensure_exists_missing n remove_if_missing w = (Raises e, w))
  \/ exists l1 x l2,
       installations (CONFIG w) = l1 ++ x :: l2
       /\ name x = n
       /\ (forall j, j ∈ l1 -> name j ≠ n)
       /\ ensure_exists_missing n remove_if_missing w
          = (Raises (InstallationDoesNotExistError n),
             set_CONFIG {| defaults := defaults (CONFIG w); installations := l1 ++ l2 |} w).
Proof.
  unfold ensure_exists_missing. run_call.
  destruct remove_if_missing; [| left; by eexists].
  destruct (CONFIG_remove_installation_cases w {| name := n; root := "" |})
    as [-> | (l1 & x & l2 & Hsplit & Hx & Hfirst & ->)].
  - left. by eexists.
  - right. by exists l1, x, l2.
Qed.

(** X7. [ensure_exists] returns a record in exactly one situation, whatever
    [remove_if_missing] is: the name resolves to that record and its root
    exists and is a directory; the world is then left as it was. *)
Theorem ensure_exists_returns_iff_live
    (w w' : World) (n : string) (remove_if_missing : bool) (i : Installation) :
  ensure_exists n remove_if_missing w = (Returns i, w')
  <-> Config.get_installation (CONFIG w) n = Some i
      /\ path_exists (disk w) (root i) = true
      /\ isdir (disk w) (root i) = true
      /\ w' = w.
Proof.
  rewrite ensure_exists_unfold.
  assert (ensure_exists_missing n remove_if_missing w ≠ (Returns i, w')) as Hmissing.
  { destruct (ensure_exists_missing_cases w n remove_if_missing)
      as [[e ->] | (l1 & x & l2 & _ & _ & _ & ->)]; done. }
  destruct (Config.get_installation (CONFIG w) n) as [x|].
  - destruct (path_exists (disk w) (root x)) eqn:Hexists;
      destruct (isdir (disk w) (root x)) eqn:Hisdir; cbn [negb orb].
    + split.
      * intros [= -> <-]. by rewrite Hexists, Hisdir.
      * by intros ([= ->] & _ & _ & ->).
    + split; [done |]. intros ([= ->] & _ & Hd & _). congruence.
    + split; [done |]. intros ([= ->] & He & _ & _). congruence.
    + split; [done |]. intros ([= ->] & He & _ & _). congruence.
  - split; [done |]. by intros ([=] & _).
Qed.

(** X8. Whatever its arguments and its outcome, [ensure_exists] prints
    nothing, leaves the disk, the configuration file and the defaults alone,
    and changes the lookup of no other name; the list never grows. *)
Theorem ensure_exists_frame (w : World) (n : string) (remove_if_missing : bool) :
  disk (ensure_exists n remove_if_missing w).2 = disk w
  /\ events (ensure_exists n remove_if_missing w).2 = events w
  /\ config_file (ensure_exists n remove_if_missing w).2 = config_file w
  /\ defaults (CONFIG (ensure_exists n remove_if_missing w).2) = defaults (CONFIG w)
  /\ (forall m, m ≠ n ->
        Config.get_installation (CONFIG (ensure_exists n remove_if_missing w).2) m
        = Config.get_installation (CONFIG w) m)
  /\ length (installations (CONFIG (ensure_exists n remove_if_missing w).2))
     <= length (installations (CONFIG w)).
Proof.
  assert ((ensure_exists n remove_if_missing w).2 = w
          \/ exists l1 x l2,
               installations (CONFIG w) = l1 ++ x :: l2 /\ name x = n
               /\ (ensure_exists n remove_if_missing w).2
                  = set_CONFIG {| defaults := defaults (CONFIG w);
                                  installations := l1 ++ l2 |} w) as Hshape.
  { rewrite ensure_exists_unfold.
    assert ((ensure_exists_missing n remove_if_missing w).2 = w
            \/ exists l1 x l2,
                 installations (CONFIG w) = l1 ++ x :: l2 /\ name x = n
                 /\ (ensure_exists_missing n remove_if_missing w).2
                    = set_CONFIG {| defaults := defaults (CONFIG w);
                                    installations := l1 ++ l2 |} w) as Hmissing.
    { destruct (ensure_exists_missing_cases w n remove_if_missing)
        as [[e ->] | (l1 & x & l2 & Hsplit & Hx & _ & ->)]; [by left |].
      right. by exists l1, x, l2. }
    destruct (Config.get_installation (CONFIG w) n) as [x|]; [| done].
    destruct (negb (path_exists (disk w) (root x)) || negb (isdir (disk w) (root x)));
      [done | by left]. }
  destruct Hshape as [-> | (l1 & x & l2 & Hsplit & Hx & ->)]; [done |].
  unfold Config.get_installation. cbn [CONFIG set_CONFIG installations]. rewrite Hsplit.
  repeat split.
  - intros m Hm. symmetry. apply lookup_name_skip. congruence.
  - rewrite !length_app. simpl. lia.
Qed.

(** X9. The self-healing removal frees the name: when names are unique and
    the name resolves to a record whose root is not a live directory, then
    after [ensure_exists] (with [remove_if_missing] true) the name resolves
    to nothing, [ensure_does_not_exist] passes, and names are still
    unique. *)
Theorem ensure_exists_stale_frees_name (w : World) (n : string) (i : Installation) :
  NoDup (name <$> installations (CONFIG w)) ->
  Config.get_installation (CONFIG w) n = Some i ->
  path_exists (disk w) (root i) = false \/ isdir (disk w) (root i) = false ->
  Config.get_installation (CONFIG (ensure_exists n true w).2) n = None
  /\ ensure_does_not_exist n (ensure_exists n true w).2
     = (Returns tt, (ensure_exists n true w).2)
  /\ NoDup (name <$> installations (CONFIG (ensure_exists n true w).2)).
Proof.
  intros Hnodup Hget Hstale.
  destruct (lookup_name_Some _ _ _ Hget) as (Hn & l1 & l2 & Hsplit & Hfirst).
  rewrite ensure_exists_unfold, Hget, (stale_test _ _ Hstale).
  unfold ensure_exists_missing. run_call.
  rewrite (CONFIG_remove_installation_first w l1 l2 i {| name := n; root := "" |})
    by done.
  cbn [snd]. rewrite Hsplit in Hnodup.
  destruct (NoDup_names_removed _ _ _ Hnodup) as [Hnodup' Hgone]. rewrite Hn in Hgone.
  assert (Config.get_installation
            (CONFIG (set_CONFIG {| defaults := defaults (CONFIG w);
                                   installations := l1 ++ l2 |} w)) n = None) as Hnone
    by done.
  split; [done |]. split; [| done].
  unfold ensure_does_not_exist. run_call. by rewrite Hnone.
Qed.

Lemma ensure_exists_stale_frees_name_witness :
  Config.get_installation
    (CONFIG (ensure_exists "a" true (world_of [inst_b; inst_a] {[ "/tmp/b" := Dir ]})).2) "a"
  = None
  /\ ensure_does_not_exist "a"
       (ensure_exists "a" true (world_of [inst_b; inst_a] {[ "/tmp/b" := Dir ]})).2
     = (Returns tt, (ensure_exists "a" true (world_of [inst_b; inst_a] {[ "/tmp/b" := Dir ]})).2)
  /\ NoDup (name <$> installations
                       (CONFIG (ensure_exists "a" true
                                  (world_of [inst_b; inst_a] {[ "/tmp/b" := Dir ]})).2)).
Proof.
  apply (ensure_exists_stale_frees_name
           (world_of [inst_b; inst_a] {[ "/tmp/b" := Dir ]}) "a" inst_a).
  - compute_done.
  - reflexivity.
  - left. reflexivity.
Defined.

(** ** [remove_installation] on every path *)

Section RemoverPaths.
Context `{Collaborators}.

Lemma remove_installation_unfold (w : World) (n : string) :
  remove_installation n w
  = match Config.get_installation (CONFIG w) n with
    | None =>
        (Returns tt,
         emit (Printed (Fore_RED +:+ "installation '"
                        +:+ Installation.pretty_name_str n (Some Fore_RED)
                        +:+ "' does not exist!" +:+ Style_RESET_ALL)) w)
    | Some i =>
        match _remove_installation (Some i) n w with
        | (Returns true, w1) => CONFIG_remove_installation i w1
        | (Returns false, w1) => (Returns tt, w1)
        | (Raises e, w1) => (Raises e, w1)
        | (OutOfTypes, w1) => (OutOfTypes, w1)
        end
    end.
Proof.
  unfold remove_installation. run_call.
  destruct (Config.get_installation (CONFIG w) n) as [i|]; [| done].
  by destruct (_remove_installation (Some i) n w) as [[[]|e|] w1].
Qed.

(** After a lookup that found the record, the removal from the list cannot
    fail, in any world with the same [CONFIG]. *)
Lemma CONFIG_remove_installation_found (w w1 : World) (n : string) (i : Installation) :
  Config.get_installation (CONFIG w) n = Some i ->
  CONFIG w1 = CONFIG w ->
  exists l1 l2,
    installations (CONFIG w) = l1 ++ i :: l2
    /\ (forall j, j ∈ l1 -> name j ≠ n)
    /\ CONFIG_remove_installation i w1
       = (Returns tt,
          set_CONFIG {| defaults := defaults (CONFIG w); installations := l1 ++ l2 |} w1).
Proof.
  intros Hget HC.
  destruct (lookup_name_Some _ _ _ Hget) as (Hn & l1 & l2 & Hsplit & Hfirst).
  exists l1, l2. split; [done |]. split; [done |].
  rewrite (CONFIG_remove_installation_first w1 l1 l2 i i);
    [by rewrite HC | by rewrite HC | done |].
  by rewrite Hn.
Qed.

(** X10. Removing a name the registry does not hold ends normally: one line
    says that the installation does not exist, nothing is asked, nothing is
    deleted, and the world is otherwise as it was. *)
Theorem remove_installation_unknown_name (w : World) (n : string) :
  Config.get_installation (CONFIG w) n = None ->
  remove_installation n w
  = (Returns tt,
     emit (Printed (Fore_RED +:+ "installation '"
                    +:+ Installation.pretty_name_str n (Some Fore_RED)
                    +:+ "' does not exist!" +:+ Style_RESET_ALL)) w).
Proof.
  intros Hnone. by rewrite remove_installation_unfold, Hnone.
Qed.

(** X11. A live record, a confirmed prompt and a directory removal that goes
    through: the root is handed to [remove_dir] once, after the question;
    the disk is what [remove_dir] left; the deletion is reported; the record
    leaves the list; the configuration file is not written. *)
Theorem remove_installation_confirmed
    (w : World) (n : string) (i : Installation) (fs : gmap string node) :
  Config.get_installation (CONFIG w) n = Some i ->
  path_exists (disk w) (root i) = true ->
  isdir (disk w) (root i) = true ->
  yes_no_question (removal_prompt i) = true ->
  remove_dir (root i) (disk w) = (Returns tt, fs) ->
  exists l1 l2 w',
    installations (CONFIG w) = l1 ++ i :: l2
    /\ (forall j, j ∈ l1 -> name j ≠ n)
    /\ remove_installation n w = (Returns tt, w')
    /\ CONFIG w' = {| defaults := defaults (CONFIG w); installations := l1 ++ l2 |}
    /\ disk w' = fs
    /\ config_file w' = config_file w
    /\ events w'
       = events w
         ++ [Asked (removal_prompt i) true;
             RemovedDir (root i);
             Printed ("installation '" +:+ Installation.pretty_name i None +:+ "' ("
                      +:+ root i +:+ ") deleted!")].
Proof.
  intros Hget Hexists Hisdir Hyes Hrm.
  rewrite remove_installation_unfold, Hget.
  rewrite (_remove_installation_confirmed w n i (Returns tt) fs) by done.
  match goal with
  | |- context [CONFIG_remove_installation i ?w1] =>
      destruct (CONFIG_remove_installation_found w w1 n i Hget eq_refl)
        as (l1 & l2 & Hsplit & Hfirst & ->)
  end.
  exists l1, l2. eexists. split; [done |]. split; [done |]. split; [reflexivity |].
  cbn [CONFIG disk config_file events set_CONFIG set_disk emit].
  repeat split. by rewrite <- !app_assoc.
Qed.

(** X12. When [remove_dir] raises, the exception leaves
    [remove_installation], no deletion is reported, and the record is still
    in the list, so the removal can be tried again. *)
Theorem remove_installation_deletion_fails
    (w : World) (n : string) (i : Installation) (e : exn) (fs : gmap string node) :
  Config.get_installation (CONFIG w) n = Some i ->
  path_exists (disk w) (root i) = true ->
  isdir (disk w) (root i) = true ->
  yes_no_question (removal_prompt i) = true ->
  remove_dir (root i) (disk w) = (Raises e, fs) ->
  exists w',
    remove_installation n w = (Raises e, w')
    /\ CONFIG w' = CONFIG w
    /\ disk w' = fs
    /\ events w' = events w ++ [Asked (removal_prompt i) true; RemovedDir (root i)].
Proof.
  intros Hget Hexists Hisdir Hyes Hrm.
  rewrite remove_installation_unfold, Hget.
  rewrite (_remove_installation_confirmed w n i (Raises e) fs) by done.
  eexists. split; [reflexivity |].
  cbn [CONFIG disk events set_disk emit]. repeat split. by rewrite <- !app_assoc.
Qed.

(** What [_remove_installation] does to the trace and the disk, path by
    path. *)
Lemma _remove_installation_paths (w : World) (n : string) (i : Installation) :
  (exists b text,
     _remove_installation (Some i) n w = (Returns b, emit (Printed text) w)
     /\ b = true
     /\ (path_exists (disk w) (root i) = false \/ isdir (disk w) (root i) = false))
  \/ (path_exists (disk w) (root i) = true
      /\ isdir (disk w) (root i) = true
      /\ yes_no_question (removal_prompt i) = false
      /\ _remove_installation (Some i) n w
         = (Returns false,
            emit (Printed "nothing deleted") (emit (Asked (removal_prompt i) false) w)))
  \/ (path_exists (disk w) (root i) = true
      /\ isdir (disk w) (root i) = true
      /\ yes_no_question (removal_prompt i) = true
      /\ exists r fs,
           remove_dir (root i) (disk w) = (r, fs)
           /\ _remove_installation (Some i) n w
              = match r with
                | Returns _ =>
                    (Returns true,
                     emit (Printed ("installation '" +:+ Installation.pretty_name i None
                                    +:+ "' (" +:+ root i +:+ ") deleted!"))
                       (set_disk fs (emit (RemovedDir (root i))
                                       (emit (Asked (removal_prompt i) true) w))))
                | Raises e =>
                    (Raises e,
                     set_disk fs (emit (RemovedDir (root i))
                                    (emit (Asked (removal_prompt i) true) w)))
                | OutOfTypes =>
                    (OutOfTypes,
                     set_disk fs (emit (RemovedDir (root i))
                                    (emit (Asked (removal_prompt i) true) w)))
                end).
Proof.
  destruct (path_exists (disk w) (root i)) eqn:Hexists.
  2: { left. exists true. eexists. split; [| by auto].
       apply _remove_installation_stale. by left. }
  destruct (isdir (disk w) (root i)) eqn:Hisdir.
  2: { left. exists true. eexists. split; [| by auto].
       apply _remove_installation_stale. by right. }
  destruct (yes_no_question (removal_prompt i)) eqn:Hanswer.
  - right. right. repeat split.
    destruct (remove_dir (root i) (disk w)) as [r fs] eqn:Hrm.
    exists r, fs. split; [done |].
    by apply (_remove_installation_confirmed w n i r fs).
  - right. left. repeat split. by apply _remove_installation_declined.
Qed.

Ltac trace_member H :=
  repeat (apply elem_of_cons in H as [H | H]; [try discriminate H |]);
  try (by apply elem_of_nil in H).

(** X13. Nothing is deleted without a confirmation: whatever the world and
    the name, a call of [remove_dir] shows up among the events of
    [remove_installation] only for the root of the record the name resolves
    to, only when that root is a live directory, and only when the user
    answered yes; and in every other case the disk is as it was. *)
Theorem remove_installation_deletes_only_on_confirmation (w : World) (n : string) :
  exists new,
    events (remove_installation n w).2 = events w ++ new
    /\ (forall p, RemovedDir p ∈ new ->
          exists i,
            Config.get_installation (CONFIG w) n = Some i
            /\ p = root i
            /\ path_exists (disk w) (root i) = true
            /\ isdir (disk w) (root i) = true
            /\ yes_no_question (removal_prompt i) = true)
    /\ (disk (remove_installation n w).2 = disk w
        \/ exists i,
             Config.get_installation (CONFIG w) n = Some i
             /\ path_exists (disk w) (root i) = true
             /\ isdir (disk w) (root i) = true
             /\ yes_no_question (removal_prompt i) = true
             /\ disk (remove_installation n w).2 = (remove_dir (root i) (disk w)).2).
Proof.
  rewrite remove_installation_unfold.
  destruct (Config.get_installation (CONFIG w) n) as [i|] eqn:Hget.
  2: { eexists. split; [reflexivity |]. split; [| by left].
       intros p Hp. trace_member Hp. }
  destruct (_remove_installation_paths w n i)
    as [(b & text & Hrun & -> & Hstale)
       | [(Hexists & Hisdir & Hno & Hrun)
         | (Hexists & Hisdir & Hyes & r & fs & Hrm & Hrun)]];
    rewrite Hrun.
  - destruct (CONFIG_remove_installation_found w (emit (Printed text) w) n i Hget eq_refl)
      as (l1 & l2 & _ & _ & ->).
    eexists. split; [reflexivity |]. split; [| by left].
    intros p Hp. trace_member Hp.
  - exists [Asked (removal_prompt i) false; Printed "nothing deleted"].
    split; [cbn; by rewrite <- app_assoc |]. split; [| by left].
    intros p Hp. trace_member Hp.
  - assert (forall p,
              RemovedDir p ∈ [Asked (removal_prompt i) true; RemovedDir (root i)]
              \/ (exists text,
                   RemovedDir p ∈ [Asked (removal_prompt i) true; RemovedDir (root i);
                                   Printed text]) ->
              exists i0, Some i = Some i0 /\ p = root i0
                         /\ path_exists (disk w) (root i0) = true
                         /\ isdir (disk w) (root i0) = true
                         /\ yes_no_question (removal_prompt i0) = true) as Hroot.
    { intros p [Hp | [text Hp]]; trace_member Hp;
        injection Hp as ->; by exists i. }
    destruct r as [[]|e|].
    + match goal with
      | |- context [CONFIG_remove_installation i ?w1] =>
          destruct (CONFIG_remove_installation_found w w1 n i Hget eq_refl)
            as (l1 & l2 & _ & _ & ->)
      end.
      exists [Asked (removal_prompt i) true; RemovedDir (root i);
              Printed ("installation '" +:+ Installation.pretty_name i None
                       +:+ "' (" +:+ root i +:+ ") deleted!")].
      split; [cbn; by rewrite <- !app_assoc |]. split.
      * intros p Hp. apply Hroot. right. by eexists.
      * right. exists i. by rewrite Hrm.
    + exists [Asked (removal_prompt i) true; RemovedDir (root i)].
      split; [cbn; by rewrite <- !app_assoc |]. split.
      * intros p Hp. apply Hroot. by left.
      * right. exists i. by rewrite Hrm.
    + exists [Asked (removal_prompt i) true; RemovedDir (root i)].
      split; [cbn; by rewrite <- !app_assoc |]. split.
      * intros p Hp. apply Hroot. by left.
      * right. exists i. by rewrite Hrm.
Qed.

(** X14. [remove_installation] raises nothing of its own: an exception that
    leaves it is one that [remove_dir] raised, on the root of the record the
    name resolves to, after the user confirmed.  In particular the removal
    from the list never fails there, the record having just been looked
    up. *)
Theorem remove_installation_raises_only_from_remove_dir
    (w : World) (n : string) (e : exn) :
  (remove_installation n w).1 = Raises e ->
  exists i,
    Config.get_installation (CONFIG w) n = Some i
    /\ path_exists (disk w) (root i) = true
    /\ isdir (disk w) (root i) = true
    /\ yes_no_question (removal_prompt i) = true
    /\ (remove_dir (root i) (disk w)).1 = Raises e.
Proof.
  rewrite remove_installation_unfold.
  destruct (Config.get_installation (CONFIG w) n) as [i|] eqn:Hget; [| done].
  destruct (_remove_installation_paths w n i)
    as [(b & text & Hrun & -> & Hstale)
       | [(Hexists & Hisdir & Hno & Hrun)
         | (Hexists & Hisdir & Hyes & r & fs & Hrm & Hrun)]];
    rewrite Hrun.
  - by destruct (CONFIG_remove_installation_found w (emit (Printed text) w) n i Hget eq_refl)
      as (l1 & l2 & _ & _ & ->).
  - done.
  - destruct r as [[]|e'|]; [| | done].
    + match goal with
      | |- context [CONFIG_remove_installation i ?w1] =>
          by destruct (CONFIG_remove_installation_found w w1 n i Hget eq_refl)
            as (l1 & l2 & _ & _ & ->)
      end.
    + intros [= ->]. exists i. by rewrite Hrm.
Qed.

(** X15. On every path [remove_installation] leaves the configuration file
    and the defaults alone and changes the lookup of no other name; the list
    never grows. *)
Theorem remove_installation_frame (w : World) (n : string) :
  config_file (remove_installation n w).2 = config_file w
  /\ config_writable (remove_installation n w).2 = config_writable w
  /\ defaults (CONFIG (remove_installation n w).2) = defaults (CONFIG w)
  /\ (forall m, m ≠ n ->
        Config.get_installation (CONFIG (remove_installation n w).2) m
        = Config.get_installation (CONFIG w) m)
  /\ length (installations (CONFIG (remove_installation n w).2))
     <= length (installations (CONFIG w)).
Proof.
  rewrite remove_installation_unfold.
  destruct (Config.get_installation (CONFIG w) n) as [i|] eqn:Hget; [| done].
  destruct (_remove_installation (Some i) n w) as [r w1] eqn:Hrun.
  destruct (_remove_installation_frame _ _ _ _ _ Hrun) as (HC & Hfile & Hwritable).
  destruct r as [[]|e|]; cbn [snd]; try (by rewrite HC).
  destruct (CONFIG_remove_installation_found w w1 n i Hget HC)
    as (l1 & l2 & Hsplit & Hfirst & ->).
  destruct (lookup_name_Some _ _ _ Hget) as (Hn & _).
  unfold Config.get_installation. cbn [snd CONFIG config_file config_writable set_CONFIG
                                         installations defaults].
  rewrite Hsplit. repeat split; try done.
  - intros m Hm. symmetry. apply lookup_name_skip. congruence.
  - rewrite !length_app. simpl. lia.
Qed.

End RemoverPaths.

Lemma remove_installation_unknown_name_witness :
  @remove_installation declining_user "missing" (world_of [] ∅)
  = (Returns tt,
     emit (Printed (Fore_RED +:+ "installation '"
                    +:+ Installation.pretty_name_str "missing" (Some Fore_RED)
                    +:+ "' does not exist!" +:+ Style_RESET_ALL)) (world_of [] ∅)).
Proof.
  exact (@remove_installation_unknown_name declining_user (world_of [] ∅) "missing" eq_refl).
Defined.

Lemma remove_installation_confirmed_witness :
  exists l1 l2 w',
    [inst_b; inst_a] = l1 ++ inst_a :: l2
    /\ (forall j, j ∈ l1 -> name j ≠ "a")
    /\ @remove_installation confirming_user "a"
         (world_of [inst_b; inst_a] {[ "/tmp/a" := Dir; "/tmp/b" := Dir ]})
       = (Returns tt, w')
    /\ CONFIG w' = {| defaults := Defaults.from_dict ∅; installations := l1 ++ l2 |}
    /\ disk w' = delete "/tmp/a" {[ "/tmp/a" := Dir; "/tmp/b" := Dir ]}
    /\ config_file w'
       = Some (Config.to_dict {| defaults := Defaults.from_dict ∅;
                                 installations := [inst_b; inst_a] |})
    /\ events w'
       = [] ++ [Asked (removal_prompt inst_a) true;
                RemovedDir "/tmp/a";
                Printed ("installation '" +:+ Installation.pretty_name inst_a None +:+ "' ("
                         +:+ "/tmp/a" +:+ ") deleted!")].
Proof.
  exact (@remove_installation_confirmed confirming_user
           (world_of [inst_b; inst_a] {[ "/tmp/a" := Dir; "/tmp/b" := Dir ]}) "a" inst_a
           (delete "/tmp/a" {[ "/tmp/a" := Dir; "/tmp/b" := Dir ]})
           eq_refl eq_refl eq_refl eq_refl eq_refl).
Defined.

Lemma remove_installation_deletion_fails_witness :
  exists w',
    @remove_installation confirming_user_on_locked_disk "a"
      (world_of [inst_a] {[ "/tmp/a" := Dir ]})
    = (Raises OSError, w')
    /\ CONFIG w' = CONFIG (world_of [inst_a] {[ "/tmp/a" := Dir ]})
    /\ disk w' = {[ "/tmp/a" := Dir ]}
    /\ events w' = [] ++ [Asked (removal_prompt inst_a) true; RemovedDir "/tmp/a"].
Proof.
  exact (@remove_installation_deletion_fails confirming_user_on_locked_disk
           (world_of [inst_a] {[ "/tmp/a" := Dir ]}) "a" inst_a OSError
           {[ "/tmp/a" := Dir ]} eq_refl eq_refl eq_refl eq_refl eq_refl).
Defined.

Lemma remove_installation_raises_only_from_remove_dir_witness :
  exists i,
    Config.get_installation (CONFIG (world_of [inst_a] {[ "/tmp/a" := Dir ]})) "a" = Some i
    /\ path_exists {[ "/tmp/a" := Dir ]} (root i) = true
    /\ isdir {[ "/tmp/a" := Dir ]} (root i) = true
    /\ @yes_no_question confirming_user_on_locked_disk (removal_prompt i) = true
    /\ (@remove_dir confirming_user_on_locked_disk (root i) {[ "/tmp/a" := Dir ]}).1
       = Raises OSError.
Proof.
  exact (@remove_installation_raises_only_from_remove_dir confirming_user_on_locked_disk
           (world_of [inst_a] {[ "/tmp/a" := Dir ]}) "a" OSError eq_refl).
Defined.

(** ** Loading and saving *)

(** X16. What [write_config] saves, [_load_config] loads: after a
    successful write the file holds the serialisation of [CONFIG], and a
    load returns [CONFIG] itself, printing nothing. *)
Theorem write_then_load (w : World) :
  config_writable w = true ->
  (write_config;; _load_config) w
  = (Returns (CONFIG w), set_config_file (Config.to_dict (CONFIG w)) w).
Proof.
  intros Hw. unfold write_config, _load_config, lift_outcome. run_call.
  rewrite Hw. cbn [config_file set_config_file CONFIG].
  by rewrite Config_from_to_dict.
Qed.

Lemma write_then_load_witness :
  (write_config;; _load_config) (world_of [inst_a; inst_b] ∅)
  = (Returns (CONFIG (world_of [inst_a; inst_b] ∅)),
     set_config_file (Config.to_dict (CONFIG (world_of [inst_a; inst_b] ∅)))
       (world_of [inst_a; inst_b] ∅)).
Proof.
  exact (write_then_load (world_of [inst_a; inst_b] ∅) eq_refl).
Defined.

(** X17. Without a configuration file, [_load_config] announces a new one
    and returns the config with the four fallback defaults and no
    installation; it creates no file. *)
Theorem load_without_file (w : World) :
  config_file w = None ->
  _load_config w
  = (Returns {| defaults := {| min_ram := PyFloat float_0_5; max_ram := PyInt 6;
                               idle_time := PyInt 0; backups := PyInt 5 |};
                installations := [] |},
     emit (Printed "config file missing, creating new") w)
  /\ config_file (_load_config w).2 = None.
Proof.
  intros Hnone. unfold _load_config, lift_outcome. run_call. by rewrite Hnone.
Qed.

Lemma load_without_file_witness :
  _load_config {| CONFIG := {| defaults := Defaults.from_dict ∅; installations := [] |};
                  disk := ∅; config_file := None; config_writable := true; events := [] |}
  = (Returns {| defaults := {| min_ram := PyFloat float_0_5; max_ram := PyInt 6;
                               idle_time := PyInt 0; backups := PyInt 5 |};
                installations := [] |},
     emit (Printed "config file missing, creating new")
       {| CONFIG := {| defaults := Defaults.from_dict ∅; installations := [] |};
          disk := ∅; config_file := None; config_writable := true; events := [] |})
  /\ config_file
       (_load_config
          {| CONFIG := {| defaults := Defaults.from_dict ∅; installations := [] |};
             disk := ∅; config_file := None; config_writable := true; events := [] |}).2
     = None.
Proof.
  exact (load_without_file
           {| CONFIG := {| defaults := Defaults.from_dict ∅; installations := [] |};
              disk := ∅; config_file := None; config_writable := true; events := [] |}
           eq_refl).
Defined.

(** X18. Both top-level keys are required when a file is loaded.  Without
    ["defaults"] the load raises [KeyError] for it, although each of the four
    values under it is optional; with ["defaults"] a dict and without
    ["installations"] it raises [KeyError] for that.  No config is returned
    and the world is as it was. *)
Theorem load_requires_both_keys (w : World) (raw : gmap string pyobj) :
  config_file w = Some raw ->
  (raw !! "defaults" = None -> _load_config w = (Raises (KeyError "defaults"), w))
  /\ (forall d, raw !! "defaults" = Some (PyDict d) ->
                raw !! "installations" = None ->
                _load_config w = (Raises (KeyError "installations"), w)).
Proof.
  intros Hfile. unfold _load_config, lift_outcome. run_call. rewrite Hfile.
  unfold Config.from_dict, py_getitem. split.
  - by intros ->.
  - intros d -> ->. cbn [mbind outcome_bind].
    by rewrite Defaults_from_obj_dict.
Qed.

Lemma load_requires_both_keys_witness :
  _load_config {| CONFIG := {| defaults := Defaults.from_dict ∅; installations := [] |};
                  disk := ∅; config_file := Some {[ "installations" := PyList [] ]};
                  config_writable := true; events := [] |}
  = (Raises (KeyError "defaults"),
     {| CONFIG := {| defaults := Defaults.from_dict ∅; installations := [] |};
        disk := ∅; config_file := Some {[ "installations" := PyList [] ]};
        config_writable := true; events := [] |})
  /\ _load_config {| CONFIG := {| defaults := Defaults.from_dict ∅; installations := [] |};
                     disk := ∅; config_file := Some {[ "defaults" := PyDict ∅ ]};
                     config_writable := true; events := [] |}
     = (Raises (KeyError "installations"),
        {| CONFIG := {| defaults := Defaults.from_dict ∅; installations := [] |};
           disk := ∅; config_file := Some {[ "defaults" := PyDict ∅ ]};
           config_writable := true; events := [] |}).
Proof.
  split.
  - exact (proj1 (load_requires_both_keys
                    {| CONFIG := {| defaults := Defaults.from_dict ∅; installations := [] |};
                       disk := ∅; config_file := Some {[ "installations" := PyList [] ]};
                       config_writable := true; events := [] |}
                    {[ "installations" := PyList [] ]} eq_refl) eq_refl).
  - exact (proj2 (load_requires_both_keys
                    {| CONFIG := {| defaults := Defaults.from_dict ∅; installations := [] |};
                       disk := ∅; config_file := Some {[ "defaults" := PyDict ∅ ]};
                       config_writable := true; events := [] |}
                    {[ "defaults" := PyDict ∅ ]} eq_refl) ∅ eq_refl eq_refl).
Defined.

(** ** Deserialisation of records *)

Lemma Installation_from_dict_Returns (data : gmap string pyobj) (i : Installation) :
  Installation.from_dict data = Returns i
  <-> data !! "name" = Some (PyStr (name i)) /\ data !! "root" = Some (PyStr (root i)).
Proof.
  unfold Installation.from_dict, py_getitem. cbn [mbind outcome_bind].
  destruct i as [n r]. cbn [name root].
  destruct (data !! "name") as [vn|]; destruct (data !! "root") as [vr|];
    cbn [mbind outcome_bind];
    [destruct vn; destruct vr; cbn [as_str mbind outcome_bind] | | |];
    (split; [intros ? | intros [? ?]]; by simplify_eq).
Qed.

(** X19. [Installation.from_dict] returns a record exactly when ["name"] and
    ["root"] are both present with the record's strings, whatever other keys
    the dict holds.  A missing ["name"] raises [KeyError] for it, also when
    ["root"] is missing too; a missing ["root"] raises [KeyError] for it once
    ["name"] is there. *)
Theorem Installation_from_dict_cases (data : gmap string pyobj) :
  (forall i, Installation.from_dict data = Returns i
             <-> data !! "name" = Some (PyStr (name i))
                 /\ data !! "root" = Some (PyStr (root i)))
  /\ (data !! "name" = None -> Installation.from_dict data = Raises (KeyError "name"))
  /\ (is_Some (data !! "name") -> data !! "root" = None ->
      Installation.from_dict data = Raises (KeyError "root")).
Proof.
  split; [intros i; apply Installation_from_dict_Returns |].
  unfold Installation.from_dict, py_getitem. split.
  - by intros ->.
  - by intros [v ->] ->.
Qed.

Lemma comprehension_Returns {A B : Type} (f : A -> outcome B) (l : list A) (l' : list B) :
  comprehension f l = Returns l' <-> Forall2 (fun x y => f x = Returns y) l l'.
Proof.
  revert l'. induction l as [|x l IH]; intros l'; cbn [comprehension].
  - split; [intros [= <-]; constructor | by intros ->%Forall2_nil_inv_l].
  - split.
    + destruct (f x) as [y| |] eqn:Hx; cbn [mbind outcome_bind]; [| done | done].
      destruct (comprehension f l) as [ys| |] eqn:Hl; cbn [mbind outcome_bind];
        [| done | done].
      intros [= <-]. constructor; [done |]. by apply IH.
    + intros (y & ys & Hx & Hl & ->)%Forall2_cons_inv_l.
      rewrite Hx. cbn [mbind outcome_bind].
      apply IH in Hl. rewrite Hl. done.
Qed.

Lemma comprehension_first_failure {A B : Type} (f : A -> outcome B)
    (good rest : list A) (bad : A) (e : exn) :
  Forall (fun x => exists y, f x = Returns y) good ->
  f bad = Raises e ->
  comprehension f (good ++ bad :: rest) = Raises e.
Proof.
  intros Hgood Hbad. induction Hgood as [|x good [y Hx] _ IH]; cbn [app comprehension].
  - by rewrite Hbad.
  - rewrite Hx. cbn [mbind outcome_bind]. by rewrite IH.
Qed.

Lemma Installation_from_obj_Returns (o : pyobj) (i : Installation) :
  Installation.from_obj o = Returns i
  <-> exists d, o = PyDict d
                /\ d !! "name" = Some (PyStr (name i))
                /\ d !! "root" = Some (PyStr (root i)).
Proof.
  destruct o; try (split; [done | by intros (? & [=] & _)]).
  rewrite Installation_from_obj_dict, Installation_from_dict_Returns. split.
  - intros Hd. by eexists.
  - by intros (? & [= <-] & Hd).
Qed.

(** [key in s] on strings, in words: [s] is some text, then [key], then some
    text. *)
Lemma prefix_spec (key s : string) :
  String.prefix key s = true <-> exists post, s = key +:+ post.
Proof.
  revert s. induction key as [|a key IH]; intros s.
  - split; [intros _; by exists s | by destruct s].
  - destruct s as [|b s]; cbn [String.prefix].
    + split; [done | by intros [post [=]]].
    + destruct (Ascii.ascii_dec a b) as [-> | Hab].
      * rewrite IH. split; intros [post Hpost]; exists post.
        -- by rewrite Hpost.
        -- by injection Hpost.
      * split; [done |]. intros [post [= Heq _]]. by destruct Hab.
Qed.

Lemma substring_of_spec (key s : string) :
  substring_of key s = true <-> exists pre post, s = pre +:+ key +:+ post.
Proof.
  induction s as [|a s IH]; cbn [substring_of].
  - rewrite orb_false_r, prefix_spec. split.
    + intros [post Hpost]. by exists "", post.
    + intros ([|b pre] & post & Hs); [by exists post | done].
  - rewrite orb_true_iff, prefix_spec, IH. split.
    + intros [[post Hpost] | (pre & post & Hs)].
      * by exists "", post.
      * exists (String a pre), post. by rewrite Hs.
    + intros ([|b pre] & post & Hs).
      * left. by exists post.
      * right. exists pre, post. by injection Hs.
Qed.

Lemma list_contains_spec (key : string) (l : list pyobj) :
  existsb (fun x => match x with
                    | PyStr s => bool_decide (s = key)
                    | _ => false
                    end) l = true
  <-> PyStr key ∈ l.
Proof.
  induction l as [|x l IH]; cbn [existsb].
  - split; [done | by intros ?%elem_of_nil].
  - rewrite orb_true_iff, IH, elem_of_cons. split.
    + intros [Hx | Hl]; [left | by right].
      destruct x; try done. by apply bool_decide_eq_true in Hx as ->.
    + intros [<- | Hl]; [left | by right]. by apply bool_decide_eq_true.
Qed.

(** On a list or a string, [_default_get] gives the fallback when the key
    does not occur and raises when it does. *)
Lemma _default_get_any_container (o : pyobj) (key : string) (fallback : pyobj) (b : bool) :
  py_contains key o = Returns b ->
  (forall d, o ≠ PyDict d) ->
  _default_get_any o key fallback = if b then Raises TypeError else Returns fallback.
Proof.
  intros Hb Hnodict. unfold _default_get_any. rewrite Hb. cbn [mbind outcome_bind].
  destruct b; [| done]. destruct o; try done. by destruct (Hnodict d).
Qed.

Lemma Defaults_from_obj_container (o : pyobj) (occurs : string -> bool) (D : Defaults) :
  (forall key, py_contains key o = Returns (occurs key)) ->
  (forall d, o ≠ PyDict d) ->
  Defaults.from_obj o = Returns D
  <-> D = {| min_ram := PyFloat float_0_5; max_ram := PyInt 6;
             idle_time := PyInt 0; backups := PyInt 5 |}
      /\ forall k, k ∈ ["min-ram"; "max-ram"; "idle_time"; "backups"] -> occurs k = false.
Proof.
  intros Hoccurs Hnodict. unfold Defaults.from_obj.
  rewrite !(_default_get_any_container o _ _ _ (Hoccurs _) Hnodict). split.
  - destruct (occurs "min-ram") eqn:H1; cbn [mbind outcome_bind]; [done |].
    destruct (occurs "max-ram") eqn:H2; cbn [mbind outcome_bind]; [done |].
    destruct (occurs "idle_time") eqn:H3; cbn [mbind outcome_bind]; [done |].
    destruct (occurs "backups") eqn:H4; cbn [mbind outcome_bind]; [done |].
    intros [= <-]. split; [done |].
    intros k Hk. repeat (apply elem_of_cons in Hk as [-> | Hk]; [done |]).
    by apply elem_of_nil in Hk.
  - intros [-> Hnone].
    rewrite !Hnone by (repeat first [by left | right]).
    done.
Qed.

Lemma Defaults_from_obj_Returns (o : pyobj) (D : Defaults) :
  Defaults.from_obj o = Returns D
  <-> (exists d, o = PyDict d /\ D = Defaults.from_dict d)
      \/ (D = {| min_ram := PyFloat float_0_5; max_ram := PyInt 6;
                 idle_time := PyInt 0; backups := PyInt 5 |}
          /\ ((exists l, o = PyList l
                         /\ forall k, k ∈ ["min-ram"; "max-ram"; "idle_time"; "backups"] ->
                                      PyStr k ∉ l)
              \/ (exists s, o = PyStr s
                            /\ forall k, k ∈ ["min-ram"; "max-ram"; "idle_time"; "backups"] ->
                                         ~ exists pre post, s = pre +:+ k +:+ post))).
Proof.
  destruct o as [| | | |s|l|d].
  1-4: split; [done | by intros [(? & [=] & _) | (_ & [(? & [=] & _) | (? & [=] & _)])]].
  - rewrite (Defaults_from_obj_container (PyStr s) (fun k => substring_of k s))
      by done.
    split.
    + intros [-> Hnone]. right. split; [done |]. right. exists s. split; [done |].
      intros k Hk Hin. apply substring_of_spec in Hin. by rewrite (Hnone k Hk) in Hin.
    + intros [(? & [=] & _) | (-> & [(? & [=] & _) | (s' & [= <-] & Hnone)])].
      split; [done |]. intros k Hk.
      destruct (substring_of k s) eqn:Hin; [| done].
      apply substring_of_spec in Hin. by destruct (Hnone k Hk).
  - rewrite (Defaults_from_obj_container (PyList l)
               (fun k => existsb (fun x => match x with
                                           | PyStr s => bool_decide (s = k)
                                           | _ => false
                                           end) l)) by done.
    split.
    + intros [-> Hnone]. right. split; [done |]. left. exists l. split; [done |].
      intros k Hk Hin. apply list_contains_spec in Hin. by rewrite (Hnone k Hk) in Hin.
    + intros [(? & [=] & _) | (-> & [(l' & [= <-] & Hnone) | (? & [=] & _)])].
      split; [done |]. intros k Hk.
      match goal with |- ?b = false => destruct b eqn:Hin; [| done] end.
      apply list_contains_spec in Hin. by destruct (Hnone k Hk).
  - rewrite Defaults_from_obj_dict. split.
    + intros [= <-]. left. by exists d.
    + by intros [(d' & [= <-] & ->) | (_ & [(? & [=] & _) | (? & [=] & _)])].
Qed.

(** What can be iterated into a list of records: a list of well-formed
    items, or a dict or a string with nothing in it. *)
Lemma installations_items (raw : pyobj) (l : list Installation) :
  (exists items, py_iter raw = Returns items
                 /\ comprehension Installation.from_obj items = Returns l)
  <-> exists items,
        (raw = PyList items \/ (items = [] /\ (raw = PyDict ∅ \/ raw = PyStr "")))
        /\ Forall2 (fun o i => exists e, o = PyDict e
                                         /\ e !! "name" = Some (PyStr (name i))
                                         /\ e !! "root" = Some (PyStr (root i)))
                   items l.
Proof.
  assert (forall items,
            comprehension Installation.from_obj items = Returns l
            <-> Forall2 (fun o i => exists e, o = PyDict e
                                              /\ e !! "name" = Some (PyStr (name i))
                                              /\ e !! "root" = Some (PyStr (root i)))
                        items l) as Hitems.
  { intros items. rewrite comprehension_Returns.
    split; intros Hall; (eapply Forall2_impl; [exact Hall |]);
      intros o i Ho; by apply Installation_from_obj_Returns. }
  split.
  - intros (items & Hiter & Hl). exists items. split; [| by apply Hitems].
    destruct raw as [| | | |s|items'|d]; try done.
    + injection Hiter as <-. destruct s as [|a s]; [right; auto |].
      by cbn in Hl.
    + injection Hiter as <-. by left.
    + injection Hiter as <-.
      destruct (map_to_list d) as [|[k v] kvs] eqn:Hd.
      * apply map_to_list_empty_iff in Hd as ->. right. auto.
      * by cbn in Hl.
  - intros (items & Hraw & Hl). exists items. split; [| by apply Hitems].
    destruct Hraw as [-> | [-> [-> | ->]]]; [done | | done].
    cbn [py_iter]. by rewrite map_to_list_empty.
Qed.

(** X20. [Config.from_dict] returns a config [c] in exactly these cases.
    ["defaults"] holds a dict, and the defaults of [c] are the ones read
    from it; or it holds a list or a string in which none of the four keys
    occurs (as an element, as a substring), and the defaults of [c] are the
    four fallbacks.  ["installations"] holds a list whose items are, one for
    one and in order, dicts with the names and roots of the records of [c]
    as strings; or it holds an empty dict or an empty string and [c] has no
    record. *)
Theorem Config_from_dict_Returns (data : gmap string pyobj) (c : Config) :
  Config.from_dict data = Returns c
  <-> exists dv raw items,
        data !! "defaults" = Some dv
        /\ ((exists d, dv = PyDict d /\ defaults c = Defaults.from_dict d)
            \/ (defaults c = {| min_ram := PyFloat float_0_5; max_ram := PyInt 6;
                                idle_time := PyInt 0; backups := PyInt 5 |}
                /\ ((exists l, dv = PyList l
                               /\ forall k,
                                    k ∈ ["min-ram"; "max-ram"; "idle_time"; "backups"] ->
                                    PyStr k ∉ l)
                    \/ (exists s, dv = PyStr s
                                  /\ forall k,
                                       k ∈ ["min-ram"; "max-ram"; "idle_time"; "backups"] ->
                                       ~ exists pre post, s = pre +:+ k +:+ post))))
        /\ data !! "installations" = Some raw
        /\ (raw = PyList items \/ (items = [] /\ (raw = PyDict ∅ \/ raw = PyStr "")))
        /\ Forall2 (fun o i => exists e, o = PyDict e
                                         /\ e !! "name" = Some (PyStr (name i))
                                         /\ e !! "root" = Some (PyStr (root i)))
                   items (installations c).
Proof.
  unfold Config.from_dict, py_getitem. split.
  - destruct (data !! "defaults") as [dv|]; cbn [mbind outcome_bind]; [| done].
    destruct (Defaults.from_obj dv) as [D| |] eqn:HD; cbn [mbind outcome_bind];
      [| done | done].
    destruct (data !! "installations") as [raw|]; cbn [mbind outcome_bind]; [| done].
    destruct (py_iter raw) as [items| |] eqn:Hiter; cbn [mbind outcome_bind];
      [| done | done].
    destruct (comprehension Installation.from_obj items) as [l| |] eqn:Hl;
      cbn [mbind outcome_bind]; [| done | done].
    intros [= <-]. cbn [defaults installations].
    destruct (proj1 (installations_items raw l)) as (items' & Hraw & Hall);
      [by exists items |].
    exists dv, raw, items'. split; [done |].
    split; [by apply Defaults_from_obj_Returns |]. done.
  - intros (dv & raw & items & -> & HD & -> & Hraw & Hall).
    apply Defaults_from_obj_Returns in HD.
    destruct (proj2 (installations_items raw (installations c)))
      as (items' & Hiter & Hl); [by exists items |].
    cbn [mbind outcome_bind]. rewrite HD. cbn [mbind outcome_bind].
    rewrite Hiter. cbn [mbind outcome_bind]. rewrite Hl. cbn [mbind outcome_bind].
    by destruct c.
Qed.

(** X21. The items are read in order and the first one that fails decides:
    when the items before it are well formed and it is a dict on which
    [Installation.from_dict] raises, [Config.from_dict] raises the same
    exception and returns no config, whatever follows it in the list. *)
Theorem Config_from_dict_first_bad_item
    (data d bad : gmap string pyobj) (good rest : list pyobj) (e : exn) :
  data !! "defaults" = Some (PyDict d) ->
  data !! "installations" = Some (PyList (good ++ PyDict bad :: rest)) ->
  Forall (fun o => exists i, o = PyDict (Installation.to_dict i)) good ->
  Installation.from_dict bad = Raises e ->
  Config.from_dict data = Raises e.
Proof.
  intros Hdefaults Hinstallations Hgood Hbad.
  unfold Config.from_dict, py_getitem. rewrite Hdefaults, Hinstallations.
  cbn [mbind outcome_bind]. rewrite Defaults_from_obj_dict.
  cbn [py_iter mbind outcome_bind].
  rewrite (comprehension_first_failure _ good rest (PyDict bad) e); [done | | done].
  eapply Forall_impl; [exact Hgood |].
  intros o [i ->]. exists i. rewrite Installation_from_obj_dict.
  apply Installation_from_to_dict.
Qed.

Lemma Config_from_dict_first_bad_item_witness :
  Config.from_dict
    {[ "defaults" := PyDict ∅;
       "installations" :=
         PyList ([PyDict (Installation.to_dict inst_a)]
                 ++ PyDict {[ "name" := PyStr "b" ]} :: [PyInt 7]) ]}
  = Raises (KeyError "root").
Proof.
  apply (Config_from_dict_first_bad_item _ ∅ {[ "name" := PyStr "b" ]}
           [PyDict (Installation.to_dict inst_a)] [PyInt 7] (KeyError "root")).
  - reflexivity.
  - reflexivity.
  - constructor; [by exists inst_a | constructor].
  - reflexivity.
Defined.

(** X22. What [Defaults.to_dict] writes has exactly the four keys; and
    through [from_dict] and back, a value the input had under one of the
    four keys is kept, while every other key of the input is dropped. *)
Theorem Defaults_to_dict_keys (self : Defaults) (data : gmap string pyobj) :
  dom (Defaults.to_dict self) = ({[ "min-ram"; "max-ram"; "idle_time"; "backups" ]} : gset string)
  /\ (forall k, k ∈ ({[ "min-ram"; "max-ram"; "idle_time"; "backups" ]} : gset string) ->
                is_Some (data !! k) ->
                Defaults.to_dict (Defaults.from_dict data) !! k = data !! k)
  /\ (forall k, k ∉ ({[ "min-ram"; "max-ram"; "idle_time"; "backups" ]} : gset string) ->
                Defaults.to_dict (Defaults.from_dict data) !! k = None).
Proof.
  assert (forall s : Defaults,
            dom (Defaults.to_dict s)
            = ({[ "min-ram"; "max-ram"; "idle_time"; "backups" ]} : gset string)) as Hdom.
  { intros s. unfold Defaults.to_dict.
    rewrite !dom_insert_L, dom_singleton_L. set_solver. }
  split; [apply Hdom |]. split.
  - intros k Hk [v Hv].
    unfold Defaults.to_dict, Defaults.from_dict, Defaults.__init__, _default_get.
    cbn [min_ram max_ram idle_time backups].
    rewrite !elem_of_union, !elem_of_singleton in Hk.
    destruct Hk as [[[-> | ->] | ->] | ->]; rewrite Hv; by simplify_map_eq.
  - intros k Hk. apply not_elem_of_dom. by rewrite Hdom.
Qed.
